(** * The cluster controller of kismatic: reconciliation loop and transitions

    A shallow embedding of [pkg/controller] (the second Go file of
    [src/pkg/inspector/engine.go]): the string constants naming the lifecycle
    states, [transition] with its four actions [plan], [provision], [destroy]
    and [install], [buildPlan], and the body of the loop of [run].

    The controller is a Go struct mutated through a pointer receiver, and its
    collaborators (store, provisioner, executor) are interfaces implemented
    elsewhere.  The controller's fields, the store's entry for the cluster and
    the list of calls made so far are threaded through a state monad; what
    the collaborators answer is read from an environment record. *)

From Stdlib Require Import String List ZArith Bool Lia.
Import ListNotations.
Open Scope string_scope.

(** Go's [error] values are only ever tested against [nil] and logged. *)
Definition error := string.

(** ** Package [store] *)
Module store.

(** Modelled from the spec: the declarations of [store.ClusterSpec],
    [store.ClusterStatus] and [store.Cluster] are not under src/.  The fields
    are the ones the controller reads and writes, completed by the "persisted
    state shape" of the spec (provider choice and options, node counts). *)
Record ProvisionerSpec := mkProvisionerSpec {
  Provider : string;
  Options : list (string * string)
}.

Record ClusterSpec := mkClusterSpec {
  DesiredState : string;
  Provisioner : ProvisionerSpec;
  EtcdCount : Z;
  MasterCount : Z;
  WorkerCount : Z;
  IngressCount : Z
}.

Record ClusterStatus := mkClusterStatus {
  CurrentState : string;
  WaitingForManualRetry : bool;
  ClusterIP : string
}.

Record Cluster := mkCluster {
  Spec : ClusterSpec;
  Status : ClusterStatus
}.

End store.
Import store.

(** [cmp.Equal] on two cluster specs: deep equality of the two values. *)
Definition ClusterSpec_eq_dec (a b : ClusterSpec) : {a = b} + {a <> b}.
Proof.
  repeat decide equality; try apply string_dec.
Defined.

Definition cmpEqual (a b : ClusterSpec) : bool :=
  if ClusterSpec_eq_dec a b then true else false.

(** Assignments to the fields of a cluster held by value. *)
Definition setCurrentState (cluster : Cluster) (st : string) : Cluster :=
  mkCluster (Spec cluster)
    (mkClusterStatus st (WaitingForManualRetry (Status cluster))
                     (ClusterIP (Status cluster))).

Definition setWaitingForManualRetry (cluster : Cluster) (b : bool) : Cluster :=
  mkCluster (Spec cluster)
    (mkClusterStatus (CurrentState (Status cluster)) b
                     (ClusterIP (Status cluster))).

Definition setClusterIP (cluster : Cluster) (ip : string) : Cluster :=
  mkCluster (Spec cluster)
    (mkClusterStatus (CurrentState (Status cluster))
                     (WaitingForManualRetry (Status cluster)) ip).

Definition setStatus (cluster : Cluster) (st : ClusterStatus) : Cluster :=
  mkCluster (Spec cluster) st.

Definition setSpec (cluster : Cluster) (sp : ClusterSpec) : Cluster :=
  mkCluster sp (Status cluster).

(** ** Package [install] *)
Module install.

(** Modelled from the spec: the declarations of [install.Plan],
    [install.Provisioner], [install.AWSProvisionerOptions] and
    [install.PlanTemplateOptions] are not under src/.  A plan has the fields
    the controller touches; [Body] stands for everything else in it. *)
Record AWSProvisionerOptions := mkAWSProvisionerOptions {
  AWSFields : list (string * string)
}.

Record Provisioner := mkProvisioner {
  Provider : string;
  AWSOptions : option AWSProvisionerOptions   (* a pointer, [None] is nil *)
}.

Record PlanCluster := mkPlanCluster {
  Name : string;
  AdminPassword : string
}.

Record Plan := mkPlan {
  Cluster : PlanCluster;
  MasterLoadBalancedFQDN : string;          (* Master.LoadBalancedFQDN *)
  PlanProvisioner : Provisioner;            (* Provisioner *)
  CNIProvider : string;                     (* AddOns.CNI.Provider *)
  Body : list (string * string)
}.

Record PlanTemplateOptions := mkPlanTemplateOptions {
  TemplateAdminPassword : string;           (* AdminPassword *)
  EtcdNodes : Z;
  MasterNodes : Z;
  WorkerNodes : Z;
  IngressNodes : Z
}.

(** The functions of the package that the controller calls and whose bodies
    are not under src/: [WritePlanTemplate] into a fresh [BytesPlanner],
    [BytesPlanner.Read] on what was written, and the method
    [Plan.NetworkConfigured]. *)
Record Package := mkPackage {
  WritePlanTemplate : PlanTemplateOptions -> string + error;
  Read : string -> Plan + error;
  NetworkConfigured : Plan -> bool
}.

(** The interface [install.Executor].  The methods taking [*Plan] may write
    through the pointer: they return the plan as they leave it. *)
Record Executor := mkExecutor {
  RunPreFlightCheck : Plan -> Plan * option error;
  GenerateCertificates : Plan -> bool -> Plan * option error;
  GenerateKubeconfig : Plan -> option error;
  Install : Plan -> bool -> Plan * option error;
  RunSmokeTest : Plan -> Plan * option error
}.

Definition setName (p : Plan) (n : string) : Plan :=
  mkPlan (mkPlanCluster n (AdminPassword (Cluster p)))
         (MasterLoadBalancedFQDN p) (PlanProvisioner p) (CNIProvider p) (Body p).

Definition setProvisioner (p : Plan) (pr : Provisioner) : Plan :=
  mkPlan (Cluster p) (MasterLoadBalancedFQDN p) pr (CNIProvider p) (Body p).

Definition setAWSOptions (p : Plan) (o : option AWSProvisionerOptions) : Plan :=
  setProvisioner p (mkProvisioner (Provider (PlanProvisioner p)) o).

Definition setCNIProvider (p : Plan) (cni : string) : Plan :=
  mkPlan (Cluster p) (MasterLoadBalancedFQDN p) (PlanProvisioner p) cni (Body p).

End install.

(** ** Package [provision] *)
Module provision.

(** The interface [provision.Provisioner]. *)
Record Provisioner := mkProvisioner {
  Provision : install.Plan -> install.Plan + error;
  Destroy : string -> option error
}.

End provision.

(** ** Package [controller] *)

Definition planning := "planning".
Definition planningFailed := "planningFailed".
Definition planned := "planned".
Definition provisioning := "provisioning".
Definition provisionFailed := "provisionFailed".
Definition provisioned := "provisioned".
Definition installing := "installing".
Definition installFailed := "installFailed".
Definition installed := "installed".
Definition modifying := "modifying".
Definition modifyFailed := "modifyFailed".
Definition destroying := "destroying".
Definition destroyFailed := "destroyFailed".
Definition destroyed := "destroyed".

(** The fields of [clusterController] that hold data.  The logger is not
    modelled; the executor, the provisioner factory and the store are in
    [Env] below. *)
Record clusterController := mkController {
  clusterName : string;
  clusterSpec : ClusterSpec;
  installPlan : install.Plan
}.

(** Every call that leaves the controller, and every call of [transition] by
    the loop, in the order in which they are made. *)
Inductive Event :=
| EvGet (name : string)
| EvPut (name : string) (cluster : Cluster)
| EvDelete (name : string)
| EvTransition (cluster : Cluster)
| EvProvision (p : install.Plan)
| EvDestroy (name : string)
| EvRunPreFlightCheck (p : install.Plan)
| EvGenerateCertificates (p : install.Plan) (overwrite : bool)
| EvGenerateKubeconfig (p : install.Plan)
| EvInstall (p : install.Plan) (flag : bool)
| EvRunSmokeTest (p : install.Plan).

(** What is outside of the controller during one cycle of the loop: the
    functions of [install], the executor, the provisioner factory, whether
    each of the store's operations fails, and the edit of the spec, if any,
    that somebody makes in the store while [transition] runs. *)
Record Env := mkEnv {
  pkg : install.Package;
  executor : install.Executor;
  newProvisioner : Cluster -> provision.Provisioner;
  getFails : bool;          (* the Get at the top of the cycle *)
  secondGetFails : bool;    (* the Get after the transition *)
  putFails : bool;
  deleteFails : bool;
  editDuringTransition : option ClusterSpec
}.

(** The state the code runs in: the controller, the store's entry under the
    controller's cluster name, and the calls made so far. *)
Record State := mkState {
  ctl : clusterController;
  db : option Cluster;
  trace : list Event
}.

Definition M (A : Type) : Type := State -> A * State.

Definition ret {A} (a : A) : M A := fun s => (a, s).

Definition bind {A B} (m : M A) (k : A -> M B) : M B :=
  fun s => let (a, s') := m s in k a s'.

Declare Scope ctl_scope.
Delimit Scope ctl_scope with ctl.
Notation "x <- m ;; k" := (bind m (fun x => k))
  (at level 200, m at level 100, k at level 200, right associativity) : ctl_scope.
Notation "m ;;; k" := (bind m (fun _ => k))
  (at level 200, right associativity) : ctl_scope.
Open Scope ctl_scope.

Definition getController : M clusterController := fun s => (ctl s, s).

Definition emit (e : Event) : M unit :=
  fun s => (tt, mkState (ctl s) (db s) (trace s ++ [e])).

Definition setInstallPlan (p : install.Plan) : M unit :=
  fun s => (tt, mkState (mkController (clusterName (ctl s)) (clusterSpec (ctl s)) p)
                        (db s) (trace s)).

Definition setClusterSpec (sp : ClusterSpec) : M unit :=
  fun s => (tt, mkState (mkController (clusterName (ctl s)) sp (installPlan (ctl s)))
                        (db s) (trace s)).

Definition isErr (e : option error) : bool :=
  match e with Some _ => true | None => false end.

(** *** [buildPlan] *)

Definition buildPlan (pk : install.Package) (name : string)
    (clusterSpec : ClusterSpec) (existingPassword : string)
    : install.Plan + error :=
  (* Build the plan template *)
  let planTemplate :=
    install.mkPlanTemplateOptions existingPassword
      (EtcdCount clusterSpec) (MasterCount clusterSpec)
      (WorkerCount clusterSpec) (IngressCount clusterSpec) in
  match install.WritePlanTemplate pk planTemplate with
  | inr err => inr ("could not decode request body: " ++ err)
  | inl written =>
    match install.Read pk written with
    | inr err => inr ("could not read plan: " ++ err)
    | inl p =>
      (* Set values in the plan *)
      let p := install.setName p name in
      let p := install.setProvisioner p
                 (install.mkProvisioner (Provider (Provisioner clusterSpec)) None) in
      (* Set values that depend on the cloud where the cluster will run *)
      let provider := Provider (Provisioner clusterSpec) in
      if provider =? "aws" then
        inl (install.setAWSOptions p (Some (install.mkAWSProvisionerOptions [])))
      else if provider =? "azure" then
        inl (install.setCNIProvider p "weave")
      else inl p
    end
  end.

Inductive LoopCtl := Continue | Return.

Section Controller.

Variable env : Env.

(** *** The actions *)

Definition plan (cluster : Cluster) : M Cluster :=
  c <- getController ;;
  match buildPlan (pkg env) (clusterName c) (Spec cluster)
                  (install.AdminPassword (install.Cluster (installPlan c))) with
  | inr _ =>
    ret (setWaitingForManualRetry (setCurrentState cluster planningFailed) true)
  | inl p =>
    setInstallPlan p ;;;
    ret (setCurrentState cluster planned)
  end.

Definition provision (cluster : Cluster) : M Cluster :=
  c <- getController ;;
  let provisioner := newProvisioner env cluster in
  emit (EvProvision (installPlan c)) ;;;
  match provision.Provision provisioner (installPlan c) with
  | inr _ =>
    ret (setWaitingForManualRetry (setCurrentState cluster provisionFailed) true)
  | inl updatedPlan =>
    setInstallPlan updatedPlan ;;;
    ret (setClusterIP (setCurrentState cluster provisioned)
                      (install.MasterLoadBalancedFQDN updatedPlan))
  end.

Definition destroy (cluster : Cluster) : M Cluster :=
  c <- getController ;;
  let provisioner := newProvisioner env cluster in
  emit (EvDestroy (clusterName c)) ;;;
  match provision.Destroy provisioner (clusterName c) with
  | Some _ =>
    ret (setWaitingForManualRetry (setCurrentState cluster destroyFailed) true)
  | None =>
    ret (setCurrentState cluster destroyed)
  end.

(** The executor's methods, each call recorded with its arguments. *)
Definition runPreFlightCheck (p : install.Plan) : M (install.Plan * option error) :=
  emit (EvRunPreFlightCheck p) ;;;
  ret (install.RunPreFlightCheck (executor env) p).

Definition generateCertificates (p : install.Plan) (overwrite : bool)
    : M (install.Plan * option error) :=
  emit (EvGenerateCertificates p overwrite) ;;;
  ret (install.GenerateCertificates (executor env) p overwrite).

Definition generateKubeconfig (p : install.Plan) : M (option error) :=
  emit (EvGenerateKubeconfig p) ;;;
  ret (install.GenerateKubeconfig (executor env) p).

Definition executorInstall (p : install.Plan) (flag : bool)
    : M (install.Plan * option error) :=
  emit (EvInstall p flag) ;;;
  ret (install.Install (executor env) p flag).

Definition runSmokeTest (p : install.Plan) : M (install.Plan * option error) :=
  emit (EvRunSmokeTest p) ;;;
  ret (install.RunSmokeTest (executor env) p).

Definition install (cluster : Cluster) : M Cluster :=
  c <- getController ;;
  let plan := installPlan c in
  r <- runPreFlightCheck plan ;;
  let (plan, err) := r in
  if isErr err then
    ret (setWaitingForManualRetry (setCurrentState cluster installFailed) true)
  else
  r <- generateCertificates plan false ;;
  let (plan, err) := r in
  if isErr err then
    ret (setWaitingForManualRetry (setCurrentState cluster installFailed) true)
  else
  err <- generateKubeconfig plan ;;
  if isErr err then
    ret (setWaitingForManualRetry (setCurrentState cluster installFailed) true)
  else
  r <- executorInstall plan true ;;
  let (plan, err) := r in
  if isErr err then
    ret (setWaitingForManualRetry (setCurrentState cluster installFailed) true)
  else
  (* Skip the smoketest if the user asked us to skip the installation of a
     networking stack *)
  if negb (install.NetworkConfigured (pkg env) plan) then
    ret (setCurrentState cluster installed)
  else
  r <- runSmokeTest plan ;;
  let (plan, err) := r in
  if isErr err then
    ret (setCurrentState cluster installFailed)
  else
    ret (setCurrentState cluster installed).

(** *** [transition] *)

Definition transition (cluster : Cluster) : M Cluster :=
  if DesiredState (Spec cluster) =? CurrentState (Status cluster) then
    ret cluster
  else
  (* Figure out where to go from the current state *)
  let current := CurrentState (Status cluster) in
  if current =? "" then (* This is the initial state *)
    ret (setCurrentState cluster planning)
  else if current =? planning then
    plan cluster
  else if current =? planned then
    ret (setCurrentState cluster provisioning)
  else if current =? planningFailed then
    if DesiredState (Spec cluster) =? destroyed then
      ret (setCurrentState cluster destroying)
    else ret (setCurrentState cluster planning)
  else if current =? provisioning then
    provision cluster
  else if current =? provisioned then
    if DesiredState (Spec cluster) =? destroyed then
      ret (setCurrentState cluster destroying)
    else ret (setCurrentState cluster installing)
  else if current =? provisionFailed then
    if DesiredState (Spec cluster) =? destroyed then
      ret (setCurrentState cluster destroying)
    else ret (setCurrentState cluster provisioning)
  else if current =? destroying then
    destroy cluster
  else if current =? installing then
    install cluster
  else if current =? installFailed then
    if DesiredState (Spec cluster) =? destroyed then
      ret (setCurrentState cluster destroying)
    else ret (setCurrentState cluster installing)
  else if current =? installed then
    if DesiredState (Spec cluster) =? destroyed then
      ret (setCurrentState cluster destroying)
    else ret (setWaitingForManualRetry cluster true)
  else
    (* no transition defined for the cluster's current state *)
    ret (setWaitingForManualRetry cluster true).

(** *** The loop of [run] *)

(** The store, seen from this controller: one entry, under the controller's
    cluster name.  [Get] hands out a copy of the entry and fails when there is
    none. *)
Definition storeGet (fails : bool) : M (option Cluster) :=
  c <- getController ;;
  emit (EvGet (clusterName c)) ;;;
  fun s => (if fails then None else db s, s).

(** [true] stands for a non-nil error. *)
Definition storePut (cluster : Cluster) : M bool :=
  c <- getController ;;
  emit (EvPut (clusterName c) cluster) ;;;
  if putFails env then ret true
  else fun s => (false, mkState (ctl s) (Some cluster) (trace s)).

Definition storeDelete : M bool :=
  c <- getController ;;
  emit (EvDelete (clusterName c)) ;;;
  if deleteFails env then ret true
  else fun s => (false, mkState (ctl s) None (trace s)).

(** Not a step of the controller: the edit of the spec that the environment
    makes in the store while the transition is running. *)
Definition concurrentEdit : M unit :=
  fun s =>
    match editDuringTransition env, db s with
    | Some sp, Some cl => (tt, mkState (ctl s) (Some (setSpec cl sp)) (trace s))
    | _, _ => (tt, s)
    end.

(** Lines 179-182: if the cluster spec has changed and we are not trying to
    destroy, we need to plan again. *)
Definition planAgain (c : clusterController) (cluster : Cluster) : Cluster :=
  if negb (cmpEqual (Spec cluster) (clusterSpec c))
     && negb (DesiredState (Spec cluster) =? destroyed)
  then setCurrentState cluster planning
  else cluster.

(** Lines 184-228: the rest of the loop body, from the idle check on. *)
Definition reconcile (cluster : Cluster) : M LoopCtl :=
  if (CurrentState (Status cluster) =? DesiredState (Spec cluster))
     || WaitingForManualRetry (Status cluster)
  then ret Continue
  else
  (* Transition the cluster to the next state *)
  emit (EvTransition cluster) ;;;
  transitionedCluster <- transition cluster ;;
  concurrentEdit ;;;
  r <- storeGet (secondGetFails env) ;;
  match r with
  | None => ret Continue
  | Some cluster =>
    (* Update the cluster status with the latest *)
    let cluster := setStatus cluster (Status transitionedCluster) in
    err <- storePut cluster ;;
    if err then ret Continue
    else
    setClusterSpec (Spec cluster) ;;;
    if CurrentState (Status cluster) =? destroyed then
      err <- storeDelete ;;
      if err then ret Continue else ret Return
    else ret Continue
  end.

(** One iteration of [for _ = range watch]. *)
Definition cycle : M LoopCtl :=
  r <- storeGet (getFails env) ;;
  match r with
  | None => ret Continue
  | Some cluster =>
    c <- getController ;;
    reconcile (planAgain c cluster)
  end.

End Controller.

(** *** The controller in its environment *)

(** What happens to a cluster over time: a notification on the watch channel
    (with what the outside answers during the cycle it triggers), an edit of
    the spec in the store, or somebody clearing the retry flag in the store. *)
Inductive Input :=
| Notify (env : Env)
| EditSpec (sp : ClusterSpec)
| ClearRetry.

Definition editSpec (sp : ClusterSpec) (s : State) : State :=
  mkState (ctl s) (option_map (fun cl => setSpec cl sp) (db s)) (trace s).

Definition clearRetry (s : State) : State :=
  mkState (ctl s)
          (option_map (fun cl => setWaitingForManualRetry cl false) (db s))
          (trace s).

(** [run] over the notifications of the channel, interleaved with what the
    outside does to the store.  Once the loop has returned, nothing more is
    processed. *)
Fixpoint run (inputs : list Input) (s : State) : LoopCtl * State :=
  match inputs with
  | [] => (Continue, s)
  | Notify env :: rest =>
    match cycle env s with
    | (Return, s') => (Return, s')
    | (Continue, s') => run rest s'
    end
  | EditSpec sp :: rest => run rest (editSpec sp s)
  | ClearRetry :: rest => run rest (clearRetry s)
  end.

(** [transition] applied [n] times in a row, as successive cycles do when
    nothing else changes the record. *)
Fixpoint transitions (env : Env) (n : nat) (cluster : Cluster) : M Cluster :=
  match n with
  | O => ret cluster
  | S n => cluster' <- transition env cluster ;; transitions env n cluster'
  end.

(** ** Definitions used to state the properties *)

(** The results of the executor's calls along the install pipeline, each step
    working on the plan as the previous steps left it. *)
Definition afterPreFlight (env : Env) (c : clusterController) :=
  install.RunPreFlightCheck (executor env) (installPlan c).

Definition afterCertificates (env : Env) (c : clusterController) :=
  install.GenerateCertificates (executor env) (fst (afterPreFlight env c)) false.

Definition kubeconfigError (env : Env) (c : clusterController) :=
  install.GenerateKubeconfig (executor env) (fst (afterCertificates env c)).

Definition afterInstall (env : Env) (c : clusterController) :=
  install.Install (executor env) (fst (afterCertificates env c)) true.

Definition afterSmokeTest (env : Env) (c : clusterController) :=
  install.RunSmokeTest (executor env) (fst (afterInstall env c)).

(** The install pipeline as the specification words it: an ordered list of
    steps, run one after the other on the working copy of the plan; the smoke
    test is skipped when the plan configures no networking add-on; the first
    step that fails ends the run. *)
Inductive Step :=
| PreFlightCheck
| CertificateGeneration
| KubeconfigGeneration
| Installation
| SmokeTest.

Definition pipeline_order : list Step :=
  [PreFlightCheck; CertificateGeneration; KubeconfigGeneration; Installation;
   SmokeTest].

Definition step_runs (env : Env) (st : Step) (p : install.Plan) : bool :=
  match st with
  | SmokeTest => install.NetworkConfigured (pkg env) p
  | _ => true
  end.

Definition step_call (env : Env) (st : Step) (p : install.Plan)
    : Event * (install.Plan * option error) :=
  match st with
  | PreFlightCheck =>
    (EvRunPreFlightCheck p, install.RunPreFlightCheck (executor env) p)
  | CertificateGeneration =>
    (EvGenerateCertificates p false,
     install.GenerateCertificates (executor env) p false)
  | KubeconfigGeneration =>
    (EvGenerateKubeconfig p, (p, install.GenerateKubeconfig (executor env) p))
  | Installation =>
    (EvInstall p true, install.Install (executor env) p true)
  | SmokeTest =>
    (EvRunSmokeTest p, install.RunSmokeTest (executor env) p)
  end.

(** The calls made, and the step that failed if one did. *)
Fixpoint run_pipeline (env : Env) (steps : list Step) (p : install.Plan)
    : list Event * option Step :=
  match steps with
  | [] => ([], None)
  | st :: rest =>
    if step_runs env st p then
      let '(ev, (p', err)) := step_call env st p in
      match err with
      | Some _ => ([ev], Some st)
      | None =>
        let (evs, failed) := run_pipeline env rest p' in (ev :: evs, failed)
      end
    else run_pipeline env rest p
  end.

(** The arguments the source passes for the two boolean parameters. *)
Definition flags_as_in_source (e : Event) : Prop :=
  match e with
  | EvInstall _ flag => flag = true
  | EvGenerateCertificates _ overwrite => overwrite = false
  | _ => True
  end.

(** The template that [buildPlan] hands to [WritePlanTemplate]. *)
Definition planTemplateOf (clusterSpec : ClusterSpec) (existingPassword : string)
    : install.PlanTemplateOptions :=
  install.mkPlanTemplateOptions existingPassword
    (EtcdCount clusterSpec) (MasterCount clusterSpec)
    (WorkerCount clusterSpec) (IngressCount clusterSpec).

(** Modelled from the spec: the bodies of [install.WritePlanTemplate] and
    [BytesPlanner.Read] are not under src/.  The plan builder "reuses any
    previously-known admin credential": the plan read back from the rendering
    of template [tpl] has the admin password of [tpl]. *)
Definition keeps_credential (pk : install.Package)
    (tpl : install.PlanTemplateOptions) : Prop :=
  forall written p,
    install.WritePlanTemplate pk tpl = inl written ->
    install.Read pk written = inl p ->
    install.AdminPassword (install.Cluster p) = install.TemplateAdminPassword tpl.

(** *** Concrete environments *)

Definition emptyPlan : install.Plan :=
  install.mkPlan (install.mkPlanCluster "" "") "" (install.mkProvisioner "" None)
                 "" [].

(** A package whose rendering writes the admin password and whose parser
    reads it back into a plan named "kubernetes", networking configured. *)
Definition okPackage : install.Package :=
  install.mkPackage
    (fun tpl => inl (install.TemplateAdminPassword tpl))
    (fun written =>
       inl (install.mkPlan (install.mkPlanCluster "kubernetes" written) ""
                           (install.mkProvisioner "" None) "calico" []))
    (fun _ => true).

Definition badPackage : install.Package :=
  install.mkPackage (fun _ => inr "template") (fun _ => inr "parse")
                    (fun _ => true).

Definition okExecutor : install.Executor :=
  install.mkExecutor (fun p => (p, None)) (fun p _ => (p, None)) (fun _ => None)
                     (fun p _ => (p, None)) (fun p => (p, None)).

(** An executor whose smoke test fails and whose other steps succeed. *)
Definition smokeFailExecutor : install.Executor :=
  install.mkExecutor (fun p => (p, None)) (fun p _ => (p, None)) (fun _ => None)
                     (fun p _ => (p, None)) (fun p => (p, Some "smoke")).

Definition okProvisioner : provision.Provisioner :=
  provision.mkProvisioner
    (fun p => inl (install.mkPlan (install.Cluster p) "lb.example.com"
                     (install.PlanProvisioner p) (install.CNIProvider p)
                     (install.Body p)))
    (fun _ => None).

Definition badProvisioner : provision.Provisioner :=
  provision.mkProvisioner (fun _ => inr "provision") (fun _ => Some "destroy").

Definition okEnv : Env :=
  mkEnv okPackage okExecutor (fun _ => okProvisioner)
        false false false false None.

Definition failEnv : Env :=
  mkEnv badPackage smokeFailExecutor (fun _ => badProvisioner)
        false false false false None.

Definition exampleSpec (desired : string) : ClusterSpec :=
  mkClusterSpec desired (mkProvisionerSpec "aws" []) 3 2 5 1.

Definition exampleCluster (current desired : string) : Cluster :=
  mkCluster (exampleSpec desired) (mkClusterStatus current false "").

Definition exampleState (current desired : string) : State :=
  mkState (mkController "c1" (exampleSpec desired) emptyPlan)
          (Some (exampleCluster current desired)) [].

(** *** The loop seen from outside *)

Definition is_get (e : Event) : Prop :=
  match e with EvGet _ => True | _ => False end.

Definition is_transition (e : Event) : Prop :=
  match e with EvTransition _ => True | _ => False end.

Definition is_delete (e : Event) : Prop :=
  match e with EvDelete _ => True | _ => False end.

(** Inputs that leave the retry flag of the stored record alone. *)
Definition leaves_retry_flag (i : Input) : Prop :=
  match i with ClearRetry => False | _ => True end.

(** Inputs that leave the desired state of the stored record at
    [destroyed]. *)
Definition keeps_destroyed (i : Input) : Prop :=
  match i with
  | EditSpec sp => DesiredState sp = destroyed
  | _ => True
  end.

(** The state after the [Get] at the top of a cycle. *)
Definition afterGet (s : State) : State :=
  mkState (ctl s) (db s) (trace s ++ [EvGet (clusterName (ctl s))]).

(** *** Repeated transitions *)

(** The states whose names end in "Failed". *)
Definition failedStates : list string :=
  [planningFailed; provisionFailed; installFailed; modifyFailed; destroyFailed].

Definition is_failed_state (st : string) : bool :=
  existsb (String.eqb st) failedStates.

(** The states that the controller assigns to a record, and the initial
    one. *)
Definition lifecycle_states : list string :=
  [""; planning; planningFailed; planned; provisioning; provisionFailed;
   provisioned; installing; installFailed; installed; destroying;
   destroyFailed; destroyed].

(** Every action succeeds, whatever it is called on. *)
Definition always_succeeds (env : Env) : Prop :=
  (forall tpl, exists written, install.WritePlanTemplate (pkg env) tpl = inl written) /\
  (forall written, exists p, install.Read (pkg env) written = inl p) /\
  (forall cluster p, exists p',
     provision.Provision (newProvisioner env cluster) p = inl p') /\
  (forall cluster name, provision.Destroy (newProvisioner env cluster) name = None) /\
  (forall p, snd (install.RunPreFlightCheck (executor env) p) = None) /\
  (forall p b, snd (install.GenerateCertificates (executor env) p b) = None) /\
  (forall p, install.GenerateKubeconfig (executor env) p = None) /\
  (forall p b, snd (install.Install (executor env) p b) = None) /\
  (forall p, snd (install.RunSmokeTest (executor env) p) = None).

(** The record has reached the desired state, or is in a failed state with
    the retry flag set. *)
Definition settled (cluster : Cluster) : Prop :=
  CurrentState (Status cluster) = DesiredState (Spec cluster) \/
  (is_failed_state (CurrentState (Status cluster)) = true /\
   WaitingForManualRetry (Status cluster) = true).

(** The current state and retry flag that [transition] leaves when its
    action succeeds, as a function of the desired state: the success column
    of the switch. *)
Definition success_step (desired : string) (st : string * bool) : string * bool :=
  let (current, waiting) := st in
  if desired =? current then (current, waiting)
  else if current =? "" then (planning, waiting)
  else if current =? planning then (planned, waiting)
  else if current =? planned then (provisioning, waiting)
  else if current =? planningFailed then
    (if desired =? destroyed then destroying else planning, waiting)
  else if current =? provisioning then (provisioned, waiting)
  else if current =? provisioned then
    (if desired =? destroyed then destroying else installing, waiting)
  else if current =? provisionFailed then
    (if desired =? destroyed then destroying else provisioning, waiting)
  else if current =? destroying then (destroyed, waiting)
  else if current =? installing then (installed, waiting)
  else if current =? installFailed then
    (if desired =? destroyed then destroying else installing, waiting)
  else if current =? installed then
    (if desired =? destroyed then (destroying, waiting) else (current, true))
  else (current, true).

Fixpoint success_steps (desired : string) (n : nat) (st : string * bool)
    : string * bool :=
  match n with
  | O => st
  | S n => success_steps desired n (success_step desired st)
  end.

(** The environment of a cycle during which the desired state is edited back
    to [installed] while the transition runs. *)
Definition raceEnv : Env :=
  mkEnv okPackage okExecutor (fun _ => okProvisioner)
        false false false false (Some (exampleSpec installed)).

(** A cluster is installed, its desired state is set to [destroyed], and is
    set back to [installed] while the controller moves the record to
    [destroying]; then one more notification. *)
Definition raceInputs : list Input :=
  (repeat (Notify okEnv) 6
   ++ [EditSpec (exampleSpec destroyed); Notify raceEnv; Notify okEnv])%list.

Definition raceCluster : Cluster :=
  mkCluster (exampleSpec installed)
            (mkClusterStatus destroying false "lb.example.com").

(** An environment in which everything succeeds but the deletion from the
    store. *)
Definition deleteFailEnv : Env :=
  mkEnv okPackage okExecutor (fun _ => okProvisioner)
        false false false true None.

(** What is stored after a run: the current and desired state. *)
Definition storedStates (r : LoopCtl * State) : LoopCtl * option (string * string) :=
  (fst r,
   option_map (fun cl => (CurrentState (Status cl), DesiredState (Spec cl)))
              (db (snd r))).

(** Where repeated transitions end up when they end in neither of the two
    ways of [settled]: stalled in state [destroyed] although the desired
    state is [installed], the record having been found destroying or
    destroyed. *)
Definition stalled_destroyed (initial r : Cluster) : Prop :=
  CurrentState (Status r) = destroyed /\
  WaitingForManualRetry (Status r) = true /\
  DesiredState (Spec initial) = installed /\
  (CurrentState (Status initial) = destroying \/
   CurrentState (Status initial) = destroyed).

Definition statePair (cluster : Cluster) : string * bool :=
  (CurrentState (Status cluster), WaitingForManualRetry (Status cluster)).

(** ** Package [inspector] *)

(** The first Go file of [src/pkg/inspector/engine.go]: the mapping from rules
    to checks, and the engine that executes rules. *)
Module inspector.

(** The declarations of the rule types are not under src/ (they are in the
    package's other files).  A rule has its meta data, whose list of
    conditions [shouldExecuteRule] reads, and the fields that
    [GetCheckForRule] reads; [OtherRule] stands for a value of any other type
    that implements the interface [Rule]. *)
Record RuleMeta := mkRuleMeta {
  Kind : string;
  When : list string
}.

Inductive Rule :=
| PackageInstalled (meta : RuleMeta) (PackageName PackageVersion : string)
| PackageAvailable (meta : RuleMeta) (PackageName PackageVersion : string)
| ExecutableInPath (meta : RuleMeta) (Executable : string)
| FileContentMatches (meta : RuleMeta) (File ContentRegex : string)
| TCPPortAvailable (meta : RuleMeta) (Port : Z)
| TCPPortAccessible (meta : RuleMeta) (Port : Z)
| OtherRule (meta : RuleMeta) (typeName : string).

Definition GetRuleMeta (rule : Rule) : RuleMeta :=
  match rule with
  | PackageInstalled meta _ _ => meta
  | PackageAvailable meta _ _ => meta
  | ExecutableInPath meta _ => meta
  | FileContentMatches meta _ _ => meta
  | TCPPortAvailable meta _ => meta
  | TCPPortAccessible meta _ => meta
  | OtherRule meta _ => meta
  end.

(** The checks of package [check] that the default mapper builds.
    [PackageManager] is an interface of that package. *)
Record PackageQuery := mkPackageQuery {
  QueryName : string;       (* Name *)
  QueryVersion : string     (* Version *)
}.

Inductive Check (PackageManager : Type) :=
| PackageInstalledCheck (q : PackageQuery) (pm : PackageManager)
| PackageAvailableCheck (q : PackageQuery) (pm : PackageManager)
| BinaryDependencyCheck (BinaryName : string)
| FileContentCheck (File SearchString : string)
| TCPPortServerCheck (PortNumber : Z)
| TCPPortClientCheck (PortNumber : Z).

Arguments PackageInstalledCheck {PackageManager}.
Arguments PackageAvailableCheck {PackageManager}.
Arguments BinaryDependencyCheck {PackageManager}.
Arguments FileContentCheck {PackageManager}.
Arguments TCPPortServerCheck {PackageManager}.
Arguments TCPPortClientCheck {PackageManager}.

(** [DefaultCheckMapper.GetCheckForRule], for a mapper whose package manager
    is [pm]. *)
Definition GetCheckForRule {PackageManager : Type} (pm : PackageManager)
    (rule : Rule) : Check PackageManager + error :=
  match rule with
  | OtherRule _ typeName =>
    inr ("Rule of type " ++ typeName ++ " is not supported")
  | PackageInstalled _ name version =>
    inl (PackageInstalledCheck (mkPackageQuery name version) pm)
  | PackageAvailable _ name version =>
    inl (PackageAvailableCheck (mkPackageQuery name version) pm)
  | ExecutableInPath _ executable => inl (BinaryDependencyCheck executable)
  | FileContentMatches _ file regex => inl (FileContentCheck file regex)
  | TCPPortAvailable _ port => inl (TCPPortServerCheck port)
  | TCPPortAccessible _ port => inl (TCPPortClientCheck port)
  end.

(** The inner loop of [shouldExecuteRule]: [found] after ranging over the
    facts. *)
Fixpoint factFound (whenCondition : string) (facts : list string) (found : bool)
    : bool :=
  match facts with
  | [] => found
  | l :: facts =>
    factFound whenCondition facts (if whenCondition =? l then true else found)
  end.

(** The outer loop: return false at the first condition that is not found. *)
Fixpoint conditionsFound (conditions facts : list string) : bool :=
  match conditions with
  | [] => true
  | whenCondition :: conditions =>
    if negb (factFound whenCondition facts false) then false
    else conditionsFound conditions facts
  end.

Definition shouldExecuteRule (rule : Rule) (facts : list string) : bool :=
  if (length (When (GetRuleMeta rule)) =? 0)%nat then
    (* No conditions on the rule => always run *)
    true
  else conditionsFound (When (GetRuleMeta rule)) facts.

Record RuleResult := mkRuleResult {
  Name : string;
  Success : bool;
  Error : option error;
  Remediation : string
}.

Section Engine.

(** The values behind the interface [check.Check]. *)
Variable C : Type.

(** The calls the engine makes on checks, in the order in which it makes
    them. *)
Inductive CheckCall :=
| CallCheck (c : C)
| CallClose (c : C).

(** [e.RuleCheckMapper.GetCheckForRule]. *)
Variable mapper : Rule -> C + error.

(** The method [Name] of a rule; its bodies are not under src/. *)
Variable ruleName : Rule -> string.

(** Whether the assertion [c.(check.ClosableCheck)] succeeds. *)
Variable asClosable : C -> bool.

(** What [c.Check()] returns, given the calls made before it. *)
Variable checkOutcome : list CheckCall -> C -> bool * option error.

(** The engine: the closable checks it holds (the mutex that guards them is
    not modelled: one caller at a time), and the calls made on checks. *)
Record Engine := mkEngine {
  closableChecks : list C;
  calls : list CheckCall
}.

(** The loop of [ExecuteRules] over the rules that remain, [results] being
    the results so far. *)
Fixpoint executeLoop (rules : list Rule) (facts : list string)
    (results : list RuleResult) (e : Engine)
    : (list RuleResult + error) * Engine :=
  match rules with
  | [] => (inl results, e)
  | rule :: rules =>
    if negb (shouldExecuteRule rule facts) then
      executeLoop rules facts results e
    else
      (* Map the rule to a check *)
      match mapper rule with
      | inr err => (inr err, e)
      | inl c =>
        (* We update the closables as we go *)
        let e :=
          if asClosable c then mkEngine (closableChecks e ++ [c]) (calls e)
          else e in
        (* Run the check and report result *)
        let (ok, err) := checkOutcome (calls e) c in
        let e := mkEngine (closableChecks e) (calls e ++ [CallCheck c]) in
        let res := mkRuleResult (ruleName rule) ok err "" in
        executeLoop rules facts (results ++ [res]) e
      end
  end.

Definition ExecuteRules (rules : list Rule) (facts : list string) (e : Engine)
    : (list RuleResult + error) * Engine :=
  executeLoop rules facts [] e.

(** [CloseChecks]: the error of each [Close] is dropped, and [nil] is
    returned. *)
Definition CloseChecks (e : Engine) : option error * Engine :=
  (None,
   mkEngine (closableChecks e)
            (fold_left (fun done c => (done ++ [CallClose c])%list)
                       (closableChecks e) (calls e))).

(** The checks on which [Check] was called, among some calls. *)
Definition checked (cs : list CheckCall) : list C :=
  flat_map (fun call => match call with CallCheck c => [c] | CallClose _ => [] end)
           cs.

(** The checks on which [Close] was called. *)
Definition closed (cs : list CheckCall) : list C :=
  flat_map (fun call => match call with CallClose c => [c] | CallCheck _ => [] end)
           cs.

End Engine.

Arguments CallCheck {C}.
Arguments CallClose {C}.
Arguments mkEngine {C}.
Arguments closableChecks {C}.
Arguments calls {C}.
Arguments executeLoop {C}.
Arguments ExecuteRules {C}.
Arguments CloseChecks {C}.
Arguments checked {C}.
Arguments closed {C}.

(** The rules of a list that [ExecuteRules] does not skip. *)
Definition executed (rules : list Rule) (facts : list string) : list Rule :=
  filter (fun rule => shouldExecuteRule rule facts) rules.

Definition supported (rule : Rule) : bool :=
  match rule with OtherRule _ _ => false | _ => true end.

(** *** Concrete rules and checks *)

Definition onUbuntu : RuleMeta := mkRuleMeta "Rule" ["ubuntu"; "master"].

Definition exampleRules : list Rule :=
  [PackageInstalled (mkRuleMeta "Rule" []) "docker" "1.12";
   TCPPortAvailable onUbuntu 6443;
   ExecutableInPath (mkRuleMeta "Rule" ["centos"]) "iptables";
   TCPPortAccessible (mkRuleMeta "Rule" ["master"]) 2379].

Definition customRule : Rule := OtherRule (mkRuleMeta "Rule" ["master"]) "Custom".

Definition rulesWithCustom : list Rule :=
  [PackageInstalled (mkRuleMeta "Rule" []) "docker" "1.12";
   ExecutableInPath (mkRuleMeta "Rule" ["centos"]) "iptables";
   customRule;
   TCPPortAvailable onUbuntu 6443].

Definition exampleName (rule : Rule) : string :=
  match rule with
  | PackageInstalled _ n _ => "Package Installed: " ++ n
  | PackageAvailable _ n _ => "Package Available: " ++ n
  | ExecutableInPath _ x => "Executable In Path: " ++ x
  | FileContentMatches _ f _ => "File Content: " ++ f
  | TCPPortAvailable _ _ => "Tcp Port Available"
  | TCPPortAccessible _ _ => "Tcp Port Accessible"
  | OtherRule _ t => t
  end.

(** The TCP server check is the closable one. *)
Definition exampleClosable (c : Check unit) : bool :=
  match c with TCPPortServerCheck _ => true | _ => false end.

Definition exampleOutcome (before : list (CheckCall (Check unit))) (c : Check unit)
    : bool * option error :=
  match c with
  | TCPPortClientCheck _ => (false, Some "connection refused")
  | _ => (true, None)
  end.

Definition emptyEngine : Engine (Check unit) := mkEngine [] [].

End inspector.

(** *** What a transition and a cycle may do *)

(** The calls to the provisioner and to the executor. *)
Definition is_action (e : Event) : Prop :=
  match e with
  | EvProvision _ | EvDestroy _ | EvRunPreFlightCheck _
  | EvGenerateCertificates _ _ | EvGenerateKubeconfig _ | EvInstall _ _
  | EvRunSmokeTest _ => True
  | _ => False
  end.

(** The states that the code assigns to [CurrentState]. *)
Definition assignedStates : list string :=
  [planning; planned; provisioning; provisioned; installing; installed;
   destroying; destroyed; planningFailed; provisionFailed; installFailed;
   destroyFailed].

(** The states in which [transition] runs an action. *)
Definition actionStates : list string :=
  [planning; provisioning; destroying; installing].






(** A cycle in which the store works and nobody edits the spec. *)
Definition store_works (env : Env) : Prop :=
  getFails env = false /\ secondGetFails env = false /\ putFails env = false /\
  deleteFails env = false /\ editDuringTransition env = None.

(** The states a cluster goes through on its way to [installed]. *)
Definition installPath : list string :=
  [""; planning; planned; provisioning; provisioned; installing; installed].

(** The record the second [Get] of a cycle finds: the one that was there,
    with the spec edited in the meantime if it was. *)
Definition reread (env : Env) (cluster0 : Cluster) : Cluster :=
  match editDuringTransition env with
  | Some sp => setSpec cluster0 sp
  | None => cluster0
  end.

(** The calls of a cycle up to and including its second [Get]. *)
Definition callsToReread (name : string) (cluster : Cluster)
    (actions : list Event) : list Event :=
  ([EvGet name; EvTransition cluster] ++ actions ++ [EvGet name])%list.

(** The calls that one transition makes, read off the current state: none,
    one call to the provisioner, or the calls of the install pipeline. *)
Definition transition_calls (env : Env) (cluster : Cluster)
    (c : clusterController) : list Event :=
  let current := CurrentState (Status cluster) in
  if DesiredState (Spec cluster) =? current then []
  else if current =? provisioning then [EvProvision (installPlan c)]
  else if current =? destroying then [EvDestroy (clusterName c)]
  else if current =? installing then
    fst (run_pipeline env pipeline_order (installPlan c))
  else [].

(** A cycle in which the store works, nobody edits the spec and every action
    succeeds. *)
Definition all_goes_well (env : Env) : Prop :=
  store_works env /\ always_succeeds env.

(** An environment in which every action succeeds, the deletion from the
    store fails, and the desired state is edited to [installed] while the
    transition runs. *)
Definition editAndDeleteFailEnv : Env :=
  mkEnv okPackage okExecutor (fun _ => okProvisioner)
        false false false true (Some (exampleSpec installed)).

(** ** Properties *)

(** *** The model on the scenarios of the specification *)

(** Scenario A: one state per notification, from the initial state to
    [installed]. *)
Example scenario_A :
  map (fun n => storedStates (run (repeat (Notify okEnv) n) (exampleState "" installed)))
      [1; 2; 3; 4; 5; 6; 7]%nat
  = map (fun st => (Continue, Some (st, installed)))
        [planning; planned; provisioning; provisioned; installing; installed;
         installed].
Proof. vm_compute. reflexivity. Qed.

(** Scenario B: a failed provisioning stalls the record. *)
Example scenario_B :
  db (snd (run [Notify failEnv; Notify okEnv; Notify okEnv]
               (exampleState provisioning installed)))
  = Some (mkCluster (exampleSpec installed)
                    (mkClusterStatus provisionFailed true "")).
Proof. vm_compute. reflexivity. Qed.

(** Scenario C: the desired state flips to [destroyed] on an installed
    cluster; two notifications later the record is deleted and the loop has
    returned. *)
Example scenario_C :
  storedStates (run [EditSpec (exampleSpec destroyed); Notify okEnv]
                    (exampleState installed installed))
    = (Continue, Some (destroying, destroyed)) /\
  storedStates (run [EditSpec (exampleSpec destroyed); Notify okEnv; Notify okEnv;
                     Notify okEnv]
                    (exampleState installed installed))
    = (Return, None).
Proof. split; vm_compute; reflexivity. Qed.

(** The calls of the install pipeline when everything succeeds, and when the
    smoke test fails. *)
Example install_calls_ok :
  install okEnv (exampleCluster installing installed) (exampleState installing installed)
  = (exampleCluster installed installed,
     mkState (ctl (exampleState installing installed))
             (db (exampleState installing installed))
             [EvRunPreFlightCheck emptyPlan; EvGenerateCertificates emptyPlan false;
              EvGenerateKubeconfig emptyPlan; EvInstall emptyPlan true;
              EvRunSmokeTest emptyPlan]).
Proof. reflexivity. Qed.

Example install_calls_smoke_test_fails :
  install failEnv (exampleCluster installing installed) (exampleState installing installed)
  = (exampleCluster installFailed installed,
     mkState (ctl (exampleState installing installed))
             (db (exampleState installing installed))
             [EvRunPreFlightCheck emptyPlan; EvGenerateCertificates emptyPlan false;
              EvGenerateKubeconfig emptyPlan; EvInstall emptyPlan true;
              EvRunSmokeTest emptyPlan]).
Proof. reflexivity. Qed.

(** *** Running the monad *)

Lemma eqb_false_of_neq (a b : string) : a <> b -> (a =? b) = false.
Proof. apply String.eqb_neq. Qed.

Ltac run_monad :=
  unfold plan, provision, destroy, runPreFlightCheck, generateCertificates,
    generateKubeconfig, executorInstall, runSmokeTest, storeGet, storePut,
    storeDelete, setInstallPlan, setClusterSpec, getController, emit, bind, ret;
  cbn [fst snd ctl db trace clusterName clusterSpec installPlan].

(** C5. When the desired state equals the current state, [transition] gives
    back the record it was given and leaves the controller, the store and the
    list of calls as they were: no action is dispatched. *)
Theorem transition_noop_when_desired_reached (env : Env) (cluster : Cluster) (s : State) :
  DesiredState (Spec cluster) = CurrentState (Status cluster) ->
  transition env cluster s = (cluster, s).
Proof.
  intros H. unfold transition. rewrite H, String.eqb_refl. reflexivity.
Qed.

Lemma transition_noop_when_desired_reached_witness :
  transition failEnv (exampleCluster installed installed)
             (exampleState installed installed)
  = (exampleCluster installed installed, exampleState installed installed).
Proof.
  apply (transition_noop_when_desired_reached failEnv
           (exampleCluster installed installed)
           (exampleState installed installed)).
  reflexivity.
Defined.

(** C1. At every record with current state [destroyFailed] and desired state
    [destroyed], [transition] takes the default case of its switch: the
    current state stays [destroyFailed], the retry flag is set, and nothing
    else happens.  The record does not go to [destroying]. *)
Theorem transition_destroyFailed_takes_default
    (env : Env) (s : State) (pr : ProvisionerSpec)
    (etcd master worker ingress : Z) (waiting : bool) (ip : string) :
  let cluster :=
    mkCluster (mkClusterSpec destroyed pr etcd master worker ingress)
              (mkClusterStatus destroyFailed waiting ip) in
  transition env cluster s = (setWaitingForManualRetry cluster true, s) /\
  CurrentState (Status (fst (transition env cluster s))) = destroyFailed /\
  CurrentState (Status (fst (transition env cluster s))) <> destroying.
Proof.
  cbv zeta. split; [reflexivity|]. split; [reflexivity | cbn; discriminate].
Qed.

(** The other failed states have a case of their own in the switch: from
    them [transition] goes back to the stage that failed, or to [destroying]
    when the cluster is to be destroyed. *)
Lemma transition_retries_other_failed_states (env : Env) (s : State) :
  transition env (exampleCluster planningFailed installed) s
    = (exampleCluster planning installed, s) /\
  transition env (exampleCluster provisionFailed installed) s
    = (exampleCluster provisioning installed, s) /\
  transition env (exampleCluster installFailed installed) s
    = (exampleCluster installing installed, s) /\
  transition env (exampleCluster installFailed destroyed) s
    = (exampleCluster destroying destroyed, s).
Proof. repeat split. Qed.

(** *** The actions, one failure at a time *)

Lemma install_eq (env : Env) (cluster : Cluster) (s : State) :
  let c := ctl s in
  let failedAndWaiting :=
    setWaitingForManualRetry (setCurrentState cluster installFailed) true in
  let tr1 := (trace s ++ [EvRunPreFlightCheck (installPlan c)])%list in
  let tr2 :=
    (tr1 ++ [EvGenerateCertificates (fst (afterPreFlight env c)) false])%list in
  let tr3 := (tr2 ++ [EvGenerateKubeconfig (fst (afterCertificates env c))])%list in
  let tr4 := (tr3 ++ [EvInstall (fst (afterCertificates env c)) true])%list in
  let tr5 := (tr4 ++ [EvRunSmokeTest (fst (afterInstall env c))])%list in
  install env cluster s =
    if isErr (snd (afterPreFlight env c)) then
      (failedAndWaiting, mkState c (db s) tr1)
    else if isErr (snd (afterCertificates env c)) then
      (failedAndWaiting, mkState c (db s) tr2)
    else if isErr (kubeconfigError env c) then
      (failedAndWaiting, mkState c (db s) tr3)
    else if isErr (snd (afterInstall env c)) then
      (failedAndWaiting, mkState c (db s) tr4)
    else if negb (install.NetworkConfigured (pkg env) (fst (afterInstall env c))) then
      (setCurrentState cluster installed, mkState c (db s) tr4)
    else if isErr (snd (afterSmokeTest env c)) then
      (setCurrentState cluster installFailed, mkState c (db s) tr5)
    else (setCurrentState cluster installed, mkState c (db s) tr5).
Proof.
  unfold install, afterSmokeTest, afterInstall, kubeconfigError,
    afterCertificates, afterPreFlight.
  run_monad.
  destruct (install.RunPreFlightCheck (executor env) (installPlan (ctl s)))
    as [p1 e1]; cbn [fst snd].
  destruct (isErr e1); [reflexivity|].
  destruct (install.GenerateCertificates (executor env) p1 false)
    as [p2 e2]; cbn [fst snd].
  destruct (isErr e2); [reflexivity|].
  destruct (isErr (install.GenerateKubeconfig (executor env) p2)); [reflexivity|].
  destruct (install.Install (executor env) p2 true) as [p4 e4]; cbn [fst snd].
  destruct (isErr e4); [reflexivity|].
  destruct (install.NetworkConfigured (pkg env) p4); cbn [negb]; [|reflexivity].
  destruct (install.RunSmokeTest (executor env) p4) as [p5 e5]; cbn [fst snd].
  destruct (isErr e5); reflexivity.
Qed.

Lemma isErr_true (e : option error) : e <> None -> isErr e = true.
Proof. destruct e; [reflexivity | congruence]. Qed.

Lemma isErr_false (e : option error) : e = None -> isErr e = false.
Proof. intros ->. reflexivity. Qed.

Ltac unfold_states :=
  unfold planning, planningFailed, planned, provisioning, provisionFailed,
    provisioned, installing, installFailed, installed, modifying,
    modifyFailed, destroying, destroyFailed, destroyed in *.

(** Which action [transition] dispatches to. *)
Lemma transition_dispatch (env : Env) (cluster : Cluster) :
  DesiredState (Spec cluster) <> CurrentState (Status cluster) ->
  (CurrentState (Status cluster) = planning ->
   transition env cluster = plan env cluster) /\
  (CurrentState (Status cluster) = provisioning ->
   transition env cluster = provision env cluster) /\
  (CurrentState (Status cluster) = destroying ->
   transition env cluster = destroy env cluster) /\
  (CurrentState (Status cluster) = installing ->
   transition env cluster = install env cluster).
Proof.
  intros Hne. apply eqb_false_of_neq in Hne.
  repeat split; intros Hc; unfold transition; rewrite Hne; rewrite Hc;
    reflexivity.
Qed.

Lemma plan_fails (env : Env) (cluster : Cluster) (s : State) (e : error) :
  buildPlan (pkg env) (clusterName (ctl s)) (Spec cluster)
    (install.AdminPassword (install.Cluster (installPlan (ctl s)))) = inr e ->
  plan env cluster s =
    (setWaitingForManualRetry (setCurrentState cluster planningFailed) true, s).
Proof. intros H. run_monad. rewrite H. reflexivity. Qed.

Lemma provision_fails (env : Env) (cluster : Cluster) (s : State) (e : error) :
  provision.Provision (newProvisioner env cluster) (installPlan (ctl s)) = inr e ->
  fst (provision env cluster s) =
    setWaitingForManualRetry (setCurrentState cluster provisionFailed) true.
Proof. intros H. run_monad. rewrite H. reflexivity. Qed.

Lemma destroy_fails (env : Env) (cluster : Cluster) (s : State) (e : error) :
  provision.Destroy (newProvisioner env cluster) (clusterName (ctl s)) = Some e ->
  fst (destroy env cluster s) =
    setWaitingForManualRetry (setCurrentState cluster destroyFailed) true.
Proof. intros H. run_monad. rewrite H. reflexivity. Qed.

(** C2. The failure paths of [transition].  A failure of planning,
    provisioning or destroying, and a failure of the preflight check, of the
    certificate generation, of the kubeconfig generation or of the install
    step, set the current state to the failed state of the stage and set the
    retry flag.  A failure of the smoke test sets the current state to
    [installFailed] and leaves the retry flag as it was in the record. *)
Theorem transition_failure_paths (env : Env) (cluster : Cluster) (s : State) :
  DesiredState (Spec cluster) <> CurrentState (Status cluster) ->
  let c := ctl s in
  let status' := Status (fst (transition env cluster s)) in
  (CurrentState (Status cluster) = planning ->
   (exists e, buildPlan (pkg env) (clusterName c) (Spec cluster)
     (install.AdminPassword (install.Cluster (installPlan c))) = inr e) ->
   CurrentState status' = planningFailed /\ WaitingForManualRetry status' = true)
  /\
  (CurrentState (Status cluster) = provisioning ->
   (exists e, provision.Provision (newProvisioner env cluster) (installPlan c) = inr e) ->
   CurrentState status' = provisionFailed /\ WaitingForManualRetry status' = true)
  /\
  (CurrentState (Status cluster) = destroying ->
   (exists e, provision.Destroy (newProvisioner env cluster) (clusterName c) = Some e) ->
   CurrentState status' = destroyFailed /\ WaitingForManualRetry status' = true)
  /\
  (CurrentState (Status cluster) = installing ->
   snd (afterPreFlight env c) <> None ->
   CurrentState status' = installFailed /\ WaitingForManualRetry status' = true)
  /\
  (CurrentState (Status cluster) = installing ->
   snd (afterPreFlight env c) = None ->
   snd (afterCertificates env c) <> None ->
   CurrentState status' = installFailed /\ WaitingForManualRetry status' = true)
  /\
  (CurrentState (Status cluster) = installing ->
   snd (afterPreFlight env c) = None ->
   snd (afterCertificates env c) = None ->
   kubeconfigError env c <> None ->
   CurrentState status' = installFailed /\ WaitingForManualRetry status' = true)
  /\
  (CurrentState (Status cluster) = installing ->
   snd (afterPreFlight env c) = None ->
   snd (afterCertificates env c) = None ->
   kubeconfigError env c = None ->
   snd (afterInstall env c) <> None ->
   CurrentState status' = installFailed /\ WaitingForManualRetry status' = true)
  /\
  (CurrentState (Status cluster) = installing ->
   snd (afterPreFlight env c) = None ->
   snd (afterCertificates env c) = None ->
   kubeconfigError env c = None ->
   snd (afterInstall env c) = None ->
   install.NetworkConfigured (pkg env) (fst (afterInstall env c)) = true ->
   snd (afterSmokeTest env c) <> None ->
   CurrentState status' = installFailed /\
   WaitingForManualRetry status' = WaitingForManualRetry (Status cluster)).
Proof.
  intros Hne c status'.
  destruct (transition_dispatch env cluster Hne) as (Hplan & Hprov & Hdes & Hinst).
  subst status'.
  repeat match goal with |- _ /\ _ => split end.
  - intros Hc [e He]. rewrite (Hplan Hc), (plan_fails env cluster s e He).
    split; reflexivity.
  - intros Hc [e He]. rewrite (Hprov Hc), (provision_fails env cluster s e He).
    split; reflexivity.
  - intros Hc [e He]. rewrite (Hdes Hc), (destroy_fails env cluster s e He).
    split; reflexivity.
  - intros Hc H1. rewrite (Hinst Hc), install_eq. fold c.
    rewrite (isErr_true _ H1). split; reflexivity.
  - intros Hc H1 H2. rewrite (Hinst Hc), install_eq. fold c.
    rewrite (isErr_false _ H1), (isErr_true _ H2). split; reflexivity.
  - intros Hc H1 H2 H3. rewrite (Hinst Hc), install_eq. fold c.
    rewrite (isErr_false _ H1), (isErr_false _ H2), (isErr_true _ H3).
    split; reflexivity.
  - intros Hc H1 H2 H3 H4. rewrite (Hinst Hc), install_eq. fold c.
    rewrite (isErr_false _ H1), (isErr_false _ H2), (isErr_false _ H3),
      (isErr_true _ H4).
    split; reflexivity.
  - intros Hc H1 H2 H3 H4 Hnet H5. rewrite (Hinst Hc), install_eq. fold c.
    rewrite (isErr_false _ H1), (isErr_false _ H2), (isErr_false _ H3),
      (isErr_false _ H4), Hnet, (isErr_true _ H5).
    split; reflexivity.
Qed.

(** A planning failure and a smoke-test failure in [failEnv]: the first sets
    the retry flag, the second leaves it cleared. *)
Lemma transition_failure_paths_witness :
  (let status' := Status (fst (transition failEnv (exampleCluster planning installed)
                                 (exampleState planning installed))) in
   CurrentState status' = planningFailed /\ WaitingForManualRetry status' = true)
  /\
  (let status' := Status (fst (transition failEnv (exampleCluster installing installed)
                                 (exampleState installing installed))) in
   CurrentState status' = installFailed /\ WaitingForManualRetry status' = false).
Proof.
  split.
  - apply (transition_failure_paths failEnv (exampleCluster planning installed)
             (exampleState planning installed)).
    + discriminate.
    + reflexivity.
    + exists "could not decode request body: template". reflexivity.
  - apply (transition_failure_paths failEnv (exampleCluster installing installed)
             (exampleState installing installed)); try reflexivity; discriminate.
Defined.

(** C6. [install] runs the pipeline of the specification: the calls it adds
    to the list of calls are those of preflight check, certificate
    generation, kubeconfig generation, install and smoke test, in this order,
    the smoke test only when the plan configures networking, stopping at the
    first step that fails; the current state becomes [installFailed] when a
    step failed and [installed] when none did. *)
Theorem install_runs_pipeline_in_order (env : Env) (cluster : Cluster) (s : State) :
  let outcome := run_pipeline env pipeline_order (installPlan (ctl s)) in
  let result := install env cluster s in
  trace (snd result) = (trace s ++ fst outcome)%list /\
  ctl (snd result) = ctl s /\
  CurrentState (Status (fst result)) =
    match snd outcome with
    | Some _ => installFailed
    | None => installed
    end.
Proof.
  cbv zeta. rewrite install_eq.
  unfold afterSmokeTest, afterInstall, kubeconfigError, afterCertificates,
    afterPreFlight.
  cbn [run_pipeline pipeline_order step_runs step_call].
  destruct (install.RunPreFlightCheck (executor env) (installPlan (ctl s)))
    as [p1 [e1|]]; cbn [fst snd isErr]; [auto|].
  destruct (install.GenerateCertificates (executor env) p1 false)
    as [p2 [e2|]]; cbn [fst snd isErr];
    [rewrite <- !app_assoc; auto|].
  destruct (install.GenerateKubeconfig (executor env) p2) as [e3|];
    cbn [fst snd isErr]; [rewrite <- !app_assoc; auto|].
  destruct (install.Install (executor env) p2 true) as [p4 [e4|]];
    cbn [fst snd isErr]; [rewrite <- !app_assoc; auto|].
  destruct (install.NetworkConfigured (pkg env) p4); cbn [negb fst snd];
    [|rewrite <- !app_assoc; auto].
  destruct (install.RunSmokeTest (executor env) p4) as [p5 [e5|]];
    cbn [fst snd isErr]; rewrite <- !app_assoc; auto.
Qed.

(** C10. Every call of [Install] that [install] makes has [true] as its
    second argument and every call of [GenerateCertificates] has [false]; the
    certificate call is made whenever the preflight check passes, and the
    install call whenever the three steps before it pass. *)
Theorem install_passes_fixed_flags (env : Env) (cluster : Cluster) (s : State) :
  let c := ctl s in
  exists calls,
    trace (snd (install env cluster s)) = (trace s ++ calls)%list /\
    Forall flags_as_in_source calls /\
    (snd (afterPreFlight env c) = None ->
     In (EvGenerateCertificates (fst (afterPreFlight env c)) false) calls) /\
    (snd (afterPreFlight env c) = None ->
     snd (afterCertificates env c) = None ->
     kubeconfigError env c = None ->
     In (EvInstall (fst (afterCertificates env c)) true) calls).
Proof.
  cbv zeta. rewrite install_eq.
  set (c := ctl s).
  destruct (afterPreFlight env c) as [p1 [e1|]] eqn:E1; cbn [fst snd isErr].
  { eexists; split; [reflexivity|].
    split; [repeat constructor|]. split; discriminate. }
  destruct (afterCertificates env c) as [p2 [e2|]] eqn:E2; cbn [fst snd isErr].
  { eexists; split; [rewrite <- !app_assoc; reflexivity|].
    split; [repeat constructor|]. split; [cbn; auto | discriminate]. }
  destruct (kubeconfigError env c) as [e3|] eqn:E3; cbn [isErr].
  { eexists; split; [rewrite <- !app_assoc; reflexivity|].
    split; [repeat constructor|]. split; [cbn; auto | discriminate]. }
  assert (Hin : forall rest,
    In (EvGenerateCertificates p1 false)
       ([EvRunPreFlightCheck (installPlan c)] ++
        [EvGenerateCertificates p1 false] ++
        [EvGenerateKubeconfig p2] ++ [EvInstall p2 true] ++ rest) /\
    In (EvInstall p2 true)
       ([EvRunPreFlightCheck (installPlan c)] ++
        [EvGenerateCertificates p1 false] ++
        [EvGenerateKubeconfig p2] ++ [EvInstall p2 true] ++ rest))
    by (intros rest; cbn; auto 10).
  destruct (isErr (snd (afterInstall env c))).
  { eexists; split; [rewrite <- !app_assoc; reflexivity|].
    split; [repeat constructor|]. rewrite <- (app_nil_r [EvInstall p2 true]).
    split; intros; apply (Hin []). }
  destruct (negb (install.NetworkConfigured (pkg env) (fst (afterInstall env c)))).
  { eexists; split; [rewrite <- !app_assoc; reflexivity|].
    split; [repeat constructor|]. rewrite <- (app_nil_r [EvInstall p2 true]).
    split; intros; apply (Hin []). }
  destruct (isErr (snd (afterSmokeTest env c)));
    (eexists; split; [rewrite <- !app_assoc; reflexivity|];
     split; [repeat constructor|]; split; intros; apply Hin).
Qed.

Lemma install_passes_fixed_flags_witness :
  exists calls,
    trace (snd (install okEnv (exampleCluster installing installed)
                  (exampleState installing installed))) = calls /\
    Forall flags_as_in_source calls /\
    In (EvGenerateCertificates emptyPlan false) calls /\
    In (EvInstall emptyPlan true) calls.
Proof.
  destruct (install_passes_fixed_flags okEnv (exampleCluster installing installed)
              (exampleState installing installed)) as (calls & Htr & Hall & Hc & Hi).
  exists calls. split; [exact Htr|]. split; [exact Hall|].
  split; [apply Hc | apply Hi]; reflexivity.
Defined.

(** C9. [buildPlan] fails exactly when rendering the template or reading the
    plan back fails.  When it succeeds, the plan is the one read back, with
    the cluster name and the provider set: for "azure" the CNI provider is
    "weave", for "aws" the AWS options are the zero value, for every other
    provider nothing else is changed.  The existing password goes into the
    template and [buildPlan] leaves the password of the plan read back as it
    is: when rendering and reading keep the credential, the plan carries the
    one that was supplied. *)
Theorem buildPlan_result (pk : install.Package) (name : string)
    (clusterSpec : ClusterSpec) (existingPassword : string) :
  let tpl := planTemplateOf clusterSpec existingPassword in
  let provider := Provider (Provisioner clusterSpec) in
  install.TemplateAdminPassword tpl = existingPassword /\
  match buildPlan pk name clusterSpec existingPassword with
  | inr _ =>
    (exists e, install.WritePlanTemplate pk tpl = inr e) \/
    (exists written e, install.WritePlanTemplate pk tpl = inl written /\
                       install.Read pk written = inr e)
  | inl p =>
    exists written p0,
      install.WritePlanTemplate pk tpl = inl written /\
      install.Read pk written = inl p0 /\
      install.AdminPassword (install.Cluster p)
        = install.AdminPassword (install.Cluster p0) /\
      (keeps_credential pk tpl ->
       install.AdminPassword (install.Cluster p) = existingPassword) /\
      install.Name (install.Cluster p) = name /\
      install.Provider (install.PlanProvisioner p) = provider /\
      (provider = "azure" ->
       install.CNIProvider p = "weave" /\
       p = install.setCNIProvider
             (install.setProvisioner (install.setName p0 name)
                (install.mkProvisioner provider None)) "weave") /\
      (provider = "aws" ->
       install.AWSOptions (install.PlanProvisioner p)
         = Some (install.mkAWSProvisionerOptions []) /\
       p = install.setProvisioner (install.setName p0 name)
             (install.mkProvisioner provider
                (Some (install.mkAWSProvisionerOptions [])))) /\
      (provider <> "aws" -> provider <> "azure" ->
       p = install.setProvisioner (install.setName p0 name)
             (install.mkProvisioner provider None))
  end.
Proof.
  intros tpl provider. split; [reflexivity|].
  unfold buildPlan. fold (planTemplateOf clusterSpec existingPassword). fold tpl.
  destruct (install.WritePlanTemplate pk tpl) as [written|e] eqn:Ew;
    [|left; eauto].
  destruct (install.Read pk written) as [p0|e] eqn:Er; [|right; eauto].
  assert (Hpw : keeps_credential pk tpl ->
                install.AdminPassword (install.Cluster p0) = existingPassword)
    by (intros Hkeep; exact (Hkeep _ _ Ew Er)).
  fold provider.
  destruct (String.eqb_spec provider "aws") as [Haws|Haws];
    [|destruct (String.eqb_spec provider "azure") as [Haz|Haz]];
    exists written, p0;
    (split; [reflexivity|]); (split; [exact Er|]); (split; [reflexivity|]);
    (split; [exact Hpw|]); (split; [reflexivity|]); (split; [reflexivity|]).
  - split; [intros Haz; rewrite Haws in Haz; discriminate|].
    split; [intros _; split; reflexivity | intros Hn; contradiction].
  - split; [intros _; split; reflexivity|].
    split; [intros H; contradiction | intros _ H; contradiction].
  - split; [intros H; contradiction|].
    split; [intros H; contradiction | intros _ _; reflexivity].
Qed.

Lemma buildPlan_result_witness :
  exists p,
    buildPlan okPackage "c1"
      (mkClusterSpec installed (mkProvisionerSpec "azure" []) 3 2 5 1) "s3cret"
    = inl p /\
    install.AdminPassword (install.Cluster p) = "s3cret" /\
    install.CNIProvider p = "weave".
Proof.
  assert (Hkeep : keeps_credential okPackage
            (planTemplateOf
               (mkClusterSpec installed (mkProvisionerSpec "azure" []) 3 2 5 1)
               "s3cret")).
  { intros written p Hw Hr. cbn in Hw, Hr.
    injection Hw as <-. injection Hr as <-. reflexivity. }
  pose proof (buildPlan_result okPackage "c1"
    (mkClusterSpec installed (mkProvisionerSpec "azure" []) 3 2 5 1) "s3cret")
    as [_ H].
  destruct (buildPlan okPackage "c1"
    (mkClusterSpec installed (mkProvisionerSpec "azure" []) 3 2 5 1) "s3cret")
    as [p|e] eqn:E; [|discriminate E].
  destruct H as (written & p0 & _ & _ & _ & Hpw & _ & _ & Haz & _).
  exists p. split; [reflexivity|]. split; [exact (Hpw Hkeep)|].
  exact (proj1 (Haz eq_refl)).
Defined.

(** *** The loop *)

Lemma cmpEqual_true (a b : ClusterSpec) : cmpEqual a b = true <-> a = b.
Proof.
  unfold cmpEqual. destruct (ClusterSpec_eq_dec a b); split; congruence.
Qed.

Lemma cmpEqual_false (a b : ClusterSpec) : a <> b -> cmpEqual a b = false.
Proof.
  unfold cmpEqual. destruct (ClusterSpec_eq_dec a b); congruence.
Qed.

Lemma cycle_get_ok (env : Env) (s : State) (cluster : Cluster) :
  db s = Some cluster -> getFails env = false ->
  cycle env s = reconcile env (planAgain (ctl s) cluster) (afterGet s).
Proof.
  intros Hdb Hget. unfold cycle, afterGet. run_monad. rewrite Hget, Hdb.
  reflexivity.
Qed.

Lemma cycle_get_fails (env : Env) (s : State) :
  db s = None \/ getFails env = true ->
  cycle env s = (Continue, afterGet s).
Proof.
  intros H. unfold cycle, afterGet. run_monad.
  destruct (getFails env); [reflexivity|].
  destruct H as [-> | H]; [reflexivity | discriminate].
Qed.

(** C4. In a cycle whose [Get] succeeds: when the loaded spec differs from
    the controller's spec and its desired state is not [destroyed], the rest
    of the cycle, which starts with the idle check, runs on the record with
    its current state set to [planning]; when the desired state is
    [destroyed], it runs on the record as loaded. *)
Theorem cycle_plans_again_unless_destroying (env : Env) (s : State) (cluster : Cluster) :
  db s = Some cluster ->
  getFails env = false ->
  (Spec cluster <> clusterSpec (ctl s) ->
   DesiredState (Spec cluster) <> destroyed ->
   planAgain (ctl s) cluster = setCurrentState cluster planning /\
   cycle env s = reconcile env (setCurrentState cluster planning) (afterGet s))
  /\
  (DesiredState (Spec cluster) = destroyed ->
   planAgain (ctl s) cluster = cluster /\
   cycle env s = reconcile env cluster (afterGet s)).
Proof.
  intros Hdb Hget. rewrite (cycle_get_ok env s cluster Hdb Hget).
  split.
  - intros Hspec Hdes.
    assert (Hp : planAgain (ctl s) cluster = setCurrentState cluster planning).
    { unfold planAgain.
      rewrite (cmpEqual_false _ _ Hspec), (eqb_false_of_neq _ _ Hdes).
      reflexivity. }
    rewrite Hp. split; reflexivity.
  - intros Hdes.
    assert (Hp : planAgain (ctl s) cluster = cluster).
    { unfold planAgain. rewrite Hdes, String.eqb_refl, andb_false_r.
      reflexivity. }
    rewrite Hp. split; reflexivity.
Qed.

(** An installed cluster whose node counts are edited goes back to planning;
    a provisioned cluster whose edited spec asks for destruction does not. *)
Lemma cycle_plans_again_unless_destroying_witness :
  (let edited := mkCluster (mkClusterSpec installed (mkProvisionerSpec "aws" []) 3 2 9 1)
                           (mkClusterStatus installed false "") in
   let s := mkState (ctl (exampleState installed installed)) (Some edited) [] in
   planAgain (ctl s) edited = setCurrentState edited planning /\
   cycle okEnv s = reconcile okEnv (setCurrentState edited planning) (afterGet s))
  /\
  (let edited := exampleCluster provisioned destroyed in
   let s := mkState (ctl (exampleState provisioned installed)) (Some edited) [] in
   planAgain (ctl s) edited = edited /\
   cycle okEnv s = reconcile okEnv edited (afterGet s)).
Proof.
  split.
  - apply (cycle_plans_again_unless_destroying okEnv
             (mkState (ctl (exampleState installed installed))
                (Some (mkCluster
                         (mkClusterSpec installed (mkProvisionerSpec "aws" []) 3 2 9 1)
                         (mkClusterStatus installed false ""))) [])
             (mkCluster (mkClusterSpec installed (mkProvisionerSpec "aws" []) 3 2 9 1)
                        (mkClusterStatus installed false ""))).
    + reflexivity.
    + reflexivity.
    + discriminate.
    + discriminate.
  - apply (cycle_plans_again_unless_destroying okEnv
             (mkState (ctl (exampleState provisioned installed))
                (Some (exampleCluster provisioned destroyed)) [])
             (exampleCluster provisioned destroyed)); reflexivity.
Defined.

(** A cycle on a record that is idle or waiting only reads the store. *)
Lemma reconcile_idle (env : Env) (cluster : Cluster) (s : State) :
  CurrentState (Status cluster) = DesiredState (Spec cluster) \/
  WaitingForManualRetry (Status cluster) = true ->
  reconcile env cluster s = (Continue, s).
Proof.
  intros H. unfold reconcile.
  destruct H as [H | H]; rewrite H.
  - rewrite String.eqb_refl. reflexivity.
  - rewrite orb_true_r. reflexivity.
Qed.

Lemma planAgain_keeps_flag (c : clusterController) (cluster : Cluster) :
  WaitingForManualRetry (Status (planAgain c cluster)) =
  WaitingForManualRetry (Status cluster).
Proof. unfold planAgain. destruct (_ && _); reflexivity. Qed.

Lemma cycle_waiting (env : Env) (s : State) (cluster : Cluster) :
  db s = Some cluster ->
  WaitingForManualRetry (Status cluster) = true ->
  cycle env s = (Continue, afterGet s).
Proof.
  intros Hdb Hw.
  destruct (getFails env) eqn:Hget.
  - apply cycle_get_fails. now right.
  - rewrite (cycle_get_ok env s cluster Hdb Hget).
    apply reconcile_idle. right. now rewrite planAgain_keeps_flag.
Qed.

Lemma Forall_get_no_transition (calls : list Event) :
  Forall is_get calls -> Forall (fun e => ~ is_transition e) calls.
Proof.
  intros H. eapply Forall_impl; [|exact H]. intros [] Hg; cbn in *; tauto.
Qed.

Lemma Forall_get_no_delete (calls : list Event) :
  Forall is_get calls -> Forall (fun e => ~ is_delete e) calls.
Proof.
  intros H. eapply Forall_impl; [|exact H]. intros [] Hg; cbn in *; tauto.
Qed.

(** C7. From a stored record whose retry flag is set, and over any sequence
    of notifications and spec edits in which nobody clears the flag, the loop
    never calls [transition]: all it does is read the store.  The status of
    the stored record, and so the flag, stays as it was, and the loop keeps
    running. *)
Theorem waiting_blocks_transitions (inputs : list Input) (s : State) (cluster : Cluster) :
  db s = Some cluster ->
  WaitingForManualRetry (Status cluster) = true ->
  Forall leaves_retry_flag inputs ->
  exists calls cluster',
    run inputs s =
      (Continue, mkState (ctl s) (Some cluster') (trace s ++ calls)) /\
    Forall is_get calls /\
    Forall (fun e => ~ is_transition e) calls /\
    Status cluster' = Status cluster.
Proof.
  revert s cluster.
  induction inputs as [|i inputs IH]; intros s cluster Hdb Hw Hin.
  - exists [], cluster. rewrite app_nil_r, <- Hdb. destruct s.
    repeat split; constructor.
  - inversion Hin as [|? ? Hi Hrest]; subst.
    destruct i as [env | sp |]; [| |destruct Hi]; cbn [run].
    + rewrite (cycle_waiting env s cluster Hdb Hw).
      destruct (IH (afterGet s) cluster Hdb Hw Hrest)
        as (calls & cluster' & Hrun & Hget & Hnt & Hst).
      exists (EvGet (clusterName (ctl s)) :: calls), cluster'.
      rewrite Hrun. cbn [afterGet ctl trace]. rewrite <- app_assoc.
      repeat split; auto; constructor; cbn; auto.
    + destruct (IH (editSpec sp s) (setSpec cluster sp)) as
        (calls & cluster' & Hrun & Hget & Hnt & Hst); auto.
      { unfold editSpec. cbn. rewrite Hdb. reflexivity. }
      exists calls, cluster'. rewrite Hrun. repeat split; auto.
Qed.

Lemma waiting_blocks_transitions_witness :
  exists calls cluster',
    run [Notify okEnv; EditSpec (exampleSpec destroyed); Notify failEnv; Notify okEnv]
        (mkState (ctl (exampleState "" installed))
           (Some (mkCluster (exampleSpec installed)
                    (mkClusterStatus provisionFailed true ""))) [])
    = (Continue, mkState (ctl (exampleState "" installed)) (Some cluster') calls) /\
    Forall (fun e => ~ is_transition e) calls /\
    Status cluster' = mkClusterStatus provisionFailed true "".
Proof.
  destruct (waiting_blocks_transitions
              [Notify okEnv; EditSpec (exampleSpec destroyed); Notify failEnv;
               Notify okEnv]
              (mkState (ctl (exampleState "" installed))
                 (Some (mkCluster (exampleSpec installed)
                          (mkClusterStatus provisionFailed true ""))) [])
              (mkCluster (exampleSpec installed)
                 (mkClusterStatus provisionFailed true "")))
    as (calls & cluster' & Hrun & _ & Hnt & Hst).
  - reflexivity.
  - reflexivity.
  - repeat constructor.
  - exists calls, cluster'. split; [exact Hrun|]. split; [exact Hnt | exact Hst].
Defined.

Lemma planAgain_destroyed (c : clusterController) (cluster : Cluster) :
  DesiredState (Spec cluster) = destroyed -> planAgain c cluster = cluster.
Proof.
  intros Hdes. unfold planAgain.
  rewrite Hdes, String.eqb_refl, andb_false_r. reflexivity.
Qed.

Lemma cycle_destroyed (env : Env) (s : State) (cluster : Cluster) :
  db s = Some cluster ->
  CurrentState (Status cluster) = destroyed ->
  DesiredState (Spec cluster) = destroyed ->
  cycle env s = (Continue, afterGet s).
Proof.
  intros Hdb Hc Hd.
  destruct (getFails env) eqn:Hget.
  - apply cycle_get_fails. now right.
  - rewrite (cycle_get_ok env s cluster Hdb Hget), (planAgain_destroyed _ _ Hd).
    apply reconcile_idle. left. congruence.
Qed.

(** A stored record that is destroyed and desired destroyed stays so, and
    every notification only reads the store. *)
Lemma destroyed_record_stays (inputs : list Input) (s : State) (cluster : Cluster) :
  db s = Some cluster ->
  CurrentState (Status cluster) = destroyed ->
  DesiredState (Spec cluster) = destroyed ->
  Forall keeps_destroyed inputs ->
  exists calls cluster',
    run inputs s =
      (Continue, mkState (ctl s) (Some cluster') (trace s ++ calls)) /\
    Forall is_get calls /\
    CurrentState (Status cluster') = destroyed /\
    DesiredState (Spec cluster') = destroyed.
Proof.
  revert s cluster.
  induction inputs as [|i inputs IH]; intros s cluster Hdb Hc Hd Hin.
  - exists [], cluster. rewrite app_nil_r, <- Hdb. destruct s.
    repeat split; auto.
  - inversion Hin as [|? ? Hi Hrest]; subst.
    destruct i as [env | sp |]; cbn [run].
    + rewrite (cycle_destroyed env s cluster Hdb Hc Hd).
      destruct (IH (afterGet s) cluster Hdb Hc Hd Hrest)
        as (calls & cluster' & Hrun & Hget & Hc' & Hd').
      exists (EvGet (clusterName (ctl s)) :: calls), cluster'.
      rewrite Hrun. cbn [afterGet ctl trace]. rewrite <- app_assoc.
      repeat split; auto.
    + destruct (IH (editSpec sp s) (setSpec cluster sp)) as
        (calls & cluster' & Hrun & Hget & Hc' & Hd'); auto.
      { unfold editSpec. cbn. rewrite Hdb. reflexivity. }
      exists calls, cluster'. rewrite Hrun. repeat split; auto.
    + destruct (IH (clearRetry s) (setWaitingForManualRetry cluster false)) as
        (calls & cluster' & Hrun & Hget & Hc' & Hd'); auto.
      { unfold clearRetry. cbn. rewrite Hdb. reflexivity. }
      exists calls, cluster'. rewrite Hrun. repeat split; auto.
Qed.

Lemma destroy_succeeds (env : Env) (cluster : Cluster) (s : State) :
  provision.Destroy (newProvisioner env cluster) (clusterName (ctl s)) = None ->
  destroy env cluster s =
    (setCurrentState cluster destroyed,
     mkState (ctl s) (db s) (trace s ++ [EvDestroy (clusterName (ctl s))])).
Proof. intros H. run_monad. rewrite H. reflexivity. Qed.

(** The cycle in which the destroy action succeeds and the deletion fails. *)
Lemma cycle_destroy_then_delete_fails (env : Env) (s : State) (cluster : Cluster) :
  db s = Some cluster ->
  CurrentState (Status cluster) = destroying ->
  DesiredState (Spec cluster) = destroyed ->
  WaitingForManualRetry (Status cluster) = false ->
  getFails env = false ->
  provision.Destroy (newProvisioner env cluster) (clusterName (ctl s)) = None ->
  secondGetFails env = false ->
  putFails env = false ->
  deleteFails env = true ->
  let spec' := match editDuringTransition env with
               | Some sp => sp
               | None => Spec cluster
               end in
  let stored := mkCluster spec' (Status (setCurrentState cluster destroyed)) in
  let name := clusterName (ctl s) in
  cycle env s =
    (Continue,
     mkState (mkController name spec' (installPlan (ctl s)))
             (Some stored)
             (trace s ++ [EvGet name; EvTransition cluster; EvDestroy name;
                          EvGet name; EvPut name stored; EvDelete name])).
Proof.
  intros Hdb Hc Hd Hw Hget Hdestroy Hget2 Hput Hdel spec' stored name.
  rewrite (cycle_get_ok env s cluster Hdb Hget), (planAgain_destroyed _ _ Hd).
  assert (Hne : DesiredState (Spec cluster) <> CurrentState (Status cluster))
    by (rewrite Hc, Hd; discriminate).
  destruct (transition_dispatch env cluster Hne) as (_ & _ & Hdes & _).
  unfold reconcile. rewrite Hc, Hd, Hw. cbn [String.eqb orb].
  unfold_states. cbn [String.eqb Ascii.eqb Bool.eqb orb].
  unfold bind at 1. unfold emit at 1.
  unfold bind at 1. rewrite (Hdes Hc), destroy_succeeds by exact Hdestroy.
  unfold concurrentEdit, afterGet. run_monad.
  rewrite Hget2, Hput, Hdel, Hdb.
  subst spec' stored name.
  destruct (editDuringTransition env) as [sp|]; cbn;
    rewrite <- !app_assoc; reflexivity.
Qed.

(** C8. When the destroy action succeeds and the deletion from the store
    fails (the desired state being [destroyed]), the cycle ends with the
    record stored in state [destroyed], equal to its desired state, after one
    deletion attempt.  From then on, as long as the desired state stays
    [destroyed], every notification takes the idle branch: the loop only
    reads the store and never calls [Delete] again. *)
Theorem failed_deletion_is_never_retried
    (env : Env) (s : State) (cluster : Cluster) (inputs : list Input) :
  db s = Some cluster ->
  CurrentState (Status cluster) = destroying ->
  DesiredState (Spec cluster) = destroyed ->
  WaitingForManualRetry (Status cluster) = false ->
  getFails env = false ->
  provision.Destroy (newProvisioner env cluster) (clusterName (ctl s)) = None ->
  match editDuringTransition env with
  | Some sp => DesiredState sp = destroyed
  | None => True
  end ->
  secondGetFails env = false ->
  putFails env = false ->
  deleteFails env = true ->
  Forall keeps_destroyed inputs ->
  exists s1 stored before,
    cycle env s = (Continue, s1) /\
    db s1 = Some stored /\
    CurrentState (Status stored) = destroyed /\
    DesiredState (Spec stored) = destroyed /\
    trace s1 = (before ++ [EvDelete (clusterName (ctl s))])%list /\
    exists calls stored',
      run inputs s1 =
        (Continue, mkState (ctl s1) (Some stored') (trace s1 ++ calls)) /\
      Forall is_get calls /\
      Forall (fun e => ~ is_delete e) calls /\
      CurrentState (Status stored') = destroyed /\
      DesiredState (Spec stored') = destroyed.
Proof.
  intros Hdb Hc Hd Hw Hget Hdestroy Hedit Hget2 Hput Hdel Hin.
  pose proof (cycle_destroy_then_delete_fails env s cluster
                Hdb Hc Hd Hw Hget Hdestroy Hget2 Hput Hdel) as Hcycle.
  cbv zeta in Hcycle.
  set (spec' := match editDuringTransition env with
                | Some sp => sp
                | None => Spec cluster
                end) in *.
  assert (Hd' : DesiredState spec' = destroyed).
  { subst spec'. destruct (editDuringTransition env); assumption. }
  set (stored := mkCluster spec' (Status (setCurrentState cluster destroyed))) in *.
  eexists. exists stored.
  exists (trace s ++ [EvGet (clusterName (ctl s)); EvTransition cluster;
                      EvDestroy (clusterName (ctl s)); EvGet (clusterName (ctl s));
                      EvPut (clusterName (ctl s)) stored])%list.
  split; [exact Hcycle|]. cbn [db trace ctl].
  split; [reflexivity|]. split; [reflexivity|]. split; [exact Hd'|].
  split; [rewrite <- app_assoc; reflexivity|].
  match goal with
  | |- exists calls stored', run inputs ?s1 = _ /\ _ =>
    destruct (destroyed_record_stays inputs s1 stored)
      as (calls & stored' & Hrun & Hgets & Hc' & Hd''); auto
  end.
  exists calls, stored'. cbn [ctl trace] in Hrun.
  repeat split; auto using Forall_get_no_delete.
Qed.

Lemma failed_deletion_is_never_retried_witness :
  exists s1 stored calls stored',
    cycle deleteFailEnv (exampleState destroying destroyed) = (Continue, s1) /\
    db s1 = Some stored /\
    CurrentState (Status stored) = destroyed /\
    run [Notify okEnv; EditSpec (mkClusterSpec destroyed (mkProvisionerSpec "aws" []) 1 1 1 1);
         Notify okEnv; ClearRetry; Notify deleteFailEnv] s1
      = (Continue, mkState (ctl s1) (Some stored') (trace s1 ++ calls)) /\
    Forall (fun e => ~ is_delete e) calls /\
    CurrentState (Status stored') = destroyed.
Proof.
  destruct (failed_deletion_is_never_retried deleteFailEnv
              (exampleState destroying destroyed)
              (exampleCluster destroying destroyed)
              [Notify okEnv;
               EditSpec (mkClusterSpec destroyed (mkProvisionerSpec "aws" []) 1 1 1 1);
               Notify okEnv; ClearRetry; Notify deleteFailEnv])
    as (s1 & stored & before & Hcycle & Hdb & Hc & Hd & Htr
        & calls & stored' & Hrun & Hgets & Hnodel & Hc' & Hd');
    try reflexivity; try exact I.
  - repeat constructor.
  - exists s1, stored, calls, stored'.
    repeat split; assumption.
Defined.

(** The hypothesis on the desired state is needed.  When the desired state
    was set back to [installed] while the record went to [destroying], the
    record is stored as [destroyed] with [installed] desired after the failed
    deletion, and the next notification does not take the idle branch: the
    default case of [transition] sets the retry flag, the record is stored,
    and [Delete] is called a second time. *)
Example deletion_retried_when_desired_state_differs :
  let s := mkState (ctl (exampleState installed installed)) (Some raceCluster) [] in
  filter (fun e => match e with EvDelete _ | EvTransition _ => true | _ => false end)
         (trace (snd (run [Notify deleteFailEnv; Notify deleteFailEnv] s)))
  = [EvTransition raceCluster; EvDelete "c1";
     EvTransition (setCurrentState raceCluster destroyed); EvDelete "c1"].
Proof. vm_compute. reflexivity. Qed.

(** C8 as stated fails.  A record in state [destroying] with desired state
    [destroyed]: the destroy action succeeds, the desired state is edited to
    [installed] while it runs, and the deletion from the store fails.  The
    record stays in the store with current state [destroyed], which is not
    its desired state, and the next notification does not take the idle
    branch: [transition] is called, the record is stored and [Delete] is
    called a second time. *)
Lemma failed_deletion_retried_counterexample :
  let s := exampleState destroying destroyed in
  let s1 := snd (cycle editAndDeleteFailEnv s) in
  let s2 := snd (cycle editAndDeleteFailEnv s1) in
  provision.Destroy
    (newProvisioner editAndDeleteFailEnv (exampleCluster destroying destroyed))
    "c1" = None /\
  deleteFails editAndDeleteFailEnv = true /\
  trace s1 =
    [EvGet "c1"; EvTransition (exampleCluster destroying destroyed);
     EvDestroy "c1"; EvGet "c1";
     EvPut "c1" (exampleCluster destroyed installed); EvDelete "c1"] /\
  db s1 = Some (exampleCluster destroyed installed) /\
  CurrentState (Status (exampleCluster destroyed installed))
    <> DesiredState (Spec (exampleCluster destroyed installed)) /\
  trace s2 =
    (trace s1 ++
     [EvGet "c1"; EvTransition (exampleCluster destroyed installed);
      EvGet "c1";
      EvPut "c1" (setWaitingForManualRetry (exampleCluster destroyed installed) true);
      EvDelete "c1"])%list.
Proof.
  cbv zeta. repeat split; try reflexivity. cbn. discriminate.
Qed.

(** *** Repeated transitions when every action succeeds *)

Section Success.

Variable env : Env.
Hypothesis Hsucc : always_succeeds env.

Lemma buildPlan_succeeds (name : string) (sp : ClusterSpec) (pw : string) :
  exists p, buildPlan (pkg env) name sp pw = inl p.
Proof.
  destruct Hsucc as (Hw & Hr & _). unfold buildPlan.
  destruct (Hw (install.mkPlanTemplateOptions pw (EtcdCount sp) (MasterCount sp)
                  (WorkerCount sp) (IngressCount sp))) as [written ->].
  destruct (Hr written) as [p ->].
  destruct (_ =? "aws"); [eauto|]. destruct (_ =? "azure"); eauto.
Qed.

Lemma plan_succeeds (cluster : Cluster) (s : State) :
  fst (plan env cluster s) = setCurrentState cluster planned.
Proof.
  run_monad.
  destruct (buildPlan_succeeds (clusterName (ctl s)) (Spec cluster)
              (install.AdminPassword (install.Cluster (installPlan (ctl s)))))
    as [p ->].
  reflexivity.
Qed.

Lemma provision_succeeds (cluster : Cluster) (s : State) :
  exists ip,
    fst (provision env cluster s) =
    setClusterIP (setCurrentState cluster provisioned) ip.
Proof.
  destruct Hsucc as (_ & _ & Hp & _). run_monad.
  destruct (Hp cluster (installPlan (ctl s))) as [p' ->].
  eexists. reflexivity.
Qed.

Lemma install_succeeds (cluster : Cluster) (s : State) :
  fst (install env cluster s) = setCurrentState cluster installed.
Proof.
  destruct Hsucc as (_ & _ & _ & _ & H1 & H2 & H3 & H4 & H5).
  rewrite install_eq.
  unfold afterSmokeTest, afterInstall, kubeconfigError, afterCertificates,
    afterPreFlight.
  rewrite H1, H2, H3, H4, H5. cbn [isErr].
  destruct (negb _); reflexivity.
Qed.

(** One transition follows the success column of the switch. *)
Lemma transition_success_step (cluster : Cluster) (s : State) :
  let r := fst (transition env cluster s) in
  Spec r = Spec cluster /\
  statePair r = success_step (DesiredState (Spec cluster)) (statePair cluster).
Proof.
  cbv zeta. unfold transition, success_step, statePair.
  destruct (DesiredState (Spec cluster) =? CurrentState (Status cluster)) eqn:Hne;
    [split; reflexivity|].
  destruct (CurrentState (Status cluster) =? "")%string; [split; reflexivity|].
  destruct (CurrentState (Status cluster) =? planning);
    [rewrite plan_succeeds; split; reflexivity|].
  destruct (CurrentState (Status cluster) =? planned); [split; reflexivity|].
  destruct (CurrentState (Status cluster) =? planningFailed);
    [destruct (DesiredState (Spec cluster) =? destroyed); split; reflexivity|].
  destruct (CurrentState (Status cluster) =? provisioning);
    [destruct (provision_succeeds cluster s) as [ip ->]; split; reflexivity|].
  destruct (CurrentState (Status cluster) =? provisioned);
    [destruct (DesiredState (Spec cluster) =? destroyed); split; reflexivity|].
  destruct (CurrentState (Status cluster) =? provisionFailed);
    [destruct (DesiredState (Spec cluster) =? destroyed); split; reflexivity|].
  destruct (CurrentState (Status cluster) =? destroying).
  { rewrite destroy_succeeds by apply Hsucc. split; reflexivity. }
  destruct (CurrentState (Status cluster) =? installing);
    [rewrite install_succeeds; split; reflexivity|].
  destruct (CurrentState (Status cluster) =? installFailed);
    [destruct (DesiredState (Spec cluster) =? destroyed); split; reflexivity|].
  destruct (CurrentState (Status cluster) =? installed);
    [destruct (DesiredState (Spec cluster) =? destroyed); split; reflexivity|].
  split; reflexivity.
Qed.

Lemma transitions_success_steps (n : nat) (cluster : Cluster) (s : State) :
  let r := fst (transitions env n cluster s) in
  Spec r = Spec cluster /\
  statePair r = success_steps (DesiredState (Spec cluster)) n (statePair cluster).
Proof.
  revert cluster s. induction n as [|n IH]; intros cluster s; cbv zeta.
  - split; reflexivity.
  - cbn [transitions success_steps]. unfold bind.
    destruct (transition_success_step cluster s) as [Hspec Hpair].
    destruct (transition env cluster s) as [cluster' s']. cbn [fst] in *.
    destruct (IH cluster' s') as [Hspec' Hpair'].
    rewrite Hspec', Hpair', Hspec, Hpair. split; reflexivity.
Qed.

End Success.

Ltac try_steps k :=
  exists k; split; [lia|];
  vm_compute;
  first [ left; reflexivity
        | right; left; split; reflexivity
        | right; right; repeat split;
          first [left; reflexivity | right; reflexivity] ].

Ltac walk :=
  first [ try_steps 0%nat | try_steps 1%nat | try_steps 2%nat | try_steps 3%nat
        | try_steps 4%nat | try_steps 5%nat | try_steps 6%nat ].

(** The success column, walked from each lifecycle state. *)
Lemma success_steps_table (current desired : string) (waiting : bool) :
  In current lifecycle_states ->
  desired = installed \/ desired = destroyed ->
  exists n, n <= 6 /\
    let st := success_steps desired n (current, waiting) in
    fst st = desired \/
    (is_failed_state (fst st) = true /\ snd st = true) \/
    (fst st = destroyed /\ snd st = true /\ desired = installed /\
     (current = destroying \/ current = destroyed)).
Proof.
  intros Hin Hdes.
  cbn [lifecycle_states In] in Hin.
  destruct Hdes as [-> | ->]; destruct waiting;
    repeat (destruct Hin as [<- | Hin]; [walk|]); destruct Hin.
Qed.

(** C3, as the code has it.  From a record whose current state is one of the
    lifecycle states and whose desired state is [installed] or [destroyed],
    at most six transitions whose actions all succeed lead to the desired
    state, or to a failed state with the retry flag set, or, for a record
    found destroying or destroyed while its desired state is [installed], to
    the state [destroyed] with the retry flag set. *)
Theorem transitions_settle_or_stall_destroyed (env : Env) (s : State) (cluster : Cluster) :
  always_succeeds env ->
  In (CurrentState (Status cluster)) lifecycle_states ->
  DesiredState (Spec cluster) = installed \/
  DesiredState (Spec cluster) = destroyed ->
  exists n, n <= 6 /\
    let r := fst (transitions env n cluster s) in
    settled r \/ stalled_destroyed cluster r.
Proof.
  intros Hsucc Hin Hdes.
  destruct (success_steps_table (CurrentState (Status cluster))
              (DesiredState (Spec cluster))
              (WaitingForManualRetry (Status cluster)) Hin Hdes)
    as (n & Hn & Hst).
  exists n. split; [exact Hn|]. cbv zeta in *.
  destruct (transitions_success_steps env Hsucc n cluster s) as [Hspec Hpair].
  unfold statePair in Hpair. rewrite <- Hpair in Hst. cbn [fst snd] in Hst.
  unfold settled, stalled_destroyed. rewrite Hspec. tauto.
Qed.

Lemma okEnv_always_succeeds : always_succeeds okEnv.
Proof. repeat split; intros; cbn; eauto. Qed.

Lemma transitions_settle_or_stall_destroyed_witness :
  exists n, n <= 6 /\
    let r := fst (transitions okEnv n (exampleCluster "" installed)
                    (exampleState "" installed)) in
    settled r \/ stalled_destroyed (exampleCluster "" installed) r.
Proof.
  apply (transitions_settle_or_stall_destroyed okEnv
           (exampleState "" installed) (exampleCluster "" installed)).
  - exact okEnv_always_succeeds.
  - cbn. auto.
  - left. reflexivity.
Defined.

Lemma transitions_S (env : Env) (n : nat) (cluster : Cluster) (s : State) :
  transitions env (S n) cluster s =
  let (cluster', s') := transition env cluster s in transitions env n cluster' s'.
Proof. reflexivity. Qed.

(** In state [destroyed] with the flag set and [installed] desired,
    [transition] changes nothing. *)
Lemma transition_stalled_destroyed_fixed (env : Env) (cluster : Cluster) (s : State) :
  CurrentState (Status cluster) = destroyed ->
  DesiredState (Spec cluster) = installed ->
  WaitingForManualRetry (Status cluster) = true ->
  forall n, transitions env n cluster s = (cluster, s).
Proof.
  intros Hc Hd Hw n. induction n as [|n IH]; [reflexivity|].
  cbn [transitions]. unfold bind.
  assert (Ht : transition env cluster s = (cluster, s)).
  { unfold transition. rewrite Hc, Hd. cbn.
    destruct cluster as [sp [c w ip]]. cbn in *. subst. reflexivity. }
  rewrite Ht. exact IH.
Qed.

(** C3 as stated fails.  The loop calls [transition] on [raceCluster],
    current state [destroying] and desired state [installed]: the desired
    state was set back to [installed] while the record went from [installed]
    to [destroying].  From there, with every action succeeding, no number of
    transitions reaches the desired state or a failed state with the flag
    set: the record goes to [destroyed] and stalls there. *)
Lemma transitions_settle_counterexample :
  always_succeeds okEnv /\
  In (EvTransition raceCluster)
     (trace (snd (run raceInputs (exampleState "" installed)))) /\
  In (CurrentState (Status raceCluster)) lifecycle_states /\
  DesiredState (Spec raceCluster) = installed /\
  forall n s, ~ settled (fst (transitions okEnv n raceCluster s)).
Proof.
  split; [exact okEnv_always_succeeds|].
  split; [vm_compute; repeat (first [left; reflexivity | right])|].
  split; [cbn; auto 20|].
  split; [reflexivity|].
  intros n s.
  destruct n as [|[|n]].
  - cbn. unfold settled. cbn. intros [H | [H _]]; discriminate.
  - cbn. unfold settled. cbn. intros [H | [H _]]; discriminate.
  - set (s1 := mkState (ctl s) (db s)
                 (trace s ++ [EvDestroy (clusterName (ctl s))])).
    assert (H1 : transition okEnv raceCluster s
                 = (setCurrentState raceCluster destroyed, s1)) by reflexivity.
    assert (H2 : transition okEnv (setCurrentState raceCluster destroyed) s1
                 = (setWaitingForManualRetry
                      (setCurrentState raceCluster destroyed) true, s1))
      by reflexivity.
    rewrite transitions_S, H1. rewrite transitions_S, H2.
    rewrite transition_stalled_destroyed_fixed by reflexivity.
    unfold settled. cbn. intros [H | [H _]]; discriminate.
Qed.

(** ** The inspector *)

Section Inspector.

Import inspector.

Lemma factFound_spec (w : string) (facts : list string) (found : bool) :
  factFound w facts found = true <-> found = true \/ In w facts.
Proof.
  revert found. induction facts as [|l facts IH]; intros found; cbn.
  - tauto.
  - rewrite IH. destruct (String.eqb_spec w l) as [->|Hne].
    + split; auto.
    + split; [intros [H|H]; auto | intros [H|[H|H]]; auto; congruence].
Qed.

Lemma conditionsFound_spec (conditions facts : list string) :
  conditionsFound conditions facts = true <->
  forall w, In w conditions -> In w facts.
Proof.
  induction conditions as [|w conditions IH]; cbn.
  - split; [intros _ w [] | reflexivity].
  - destruct (factFound w facts false) eqn:Hf; cbn.
    + apply factFound_spec in Hf. destruct Hf as [Hf|Hf]; [discriminate|].
      rewrite IH. split.
      * intros H w' [<-|Hin]; auto.
      * intros H w' Hin. apply H. now right.
    + split; [discriminate|]. intros H.
      assert (Hin : factFound w facts false = true)
        by (apply factFound_spec; right; apply H; now left).
      congruence.
Qed.

(** X1. A rule is executed exactly when every one of its conditions is among
    the facts; a rule without conditions always is. *)
Theorem shouldExecuteRule_iff_conditions_met (rule : Rule) (facts : list string) :
  shouldExecuteRule rule facts = true <->
  forall w, In w (When (GetRuleMeta rule)) -> In w facts.
Proof.
  unfold shouldExecuteRule.
  destruct (When (GetRuleMeta rule)) as [|w conditions] eqn:Hw; cbn [length Nat.eqb].
  - split; [intros _ w [] | reflexivity].
  - apply conditionsFound_spec.
Qed.

Lemma shouldExecuteRule_iff_conditions_met_witness :
  shouldExecuteRule (TCPPortAvailable onUbuntu 6443) ["master"; "etcd"; "ubuntu"] = true /\
  shouldExecuteRule (TCPPortAvailable onUbuntu 6443) ["master"] <> true.
Proof.
  split.
  - apply (shouldExecuteRule_iff_conditions_met (TCPPortAvailable onUbuntu 6443)
             ["master"; "etcd"; "ubuntu"]).
    cbn. intros w [<-|[<-|[]]]; auto.
  - intros H.
    apply (shouldExecuteRule_iff_conditions_met (TCPPortAvailable onUbuntu 6443)
             ["master"]) with (w := "ubuntu") in H.
    + destruct H as [H|[]]. discriminate H.
    + cbn. auto.
Defined.

(** X2. Facts only enable rules: a rule executed under some facts is executed
    under any larger collection of facts, whatever their order and
    repetitions. *)
Theorem shouldExecuteRule_monotone (rule : Rule) (facts facts' : list string) :
  incl facts facts' ->
  shouldExecuteRule rule facts = true ->
  shouldExecuteRule rule facts' = true.
Proof.
  intros Hincl H.
  unfold shouldExecuteRule in *.
  destruct (length (When (GetRuleMeta rule)) =? 0)%nat; [reflexivity|].
  rewrite conditionsFound_spec in *. auto.
Qed.

Lemma shouldExecuteRule_monotone_witness :
  shouldExecuteRule (TCPPortAvailable onUbuntu 6443)
                    ["worker"; "ubuntu"; "master"; "ubuntu"] = true.
Proof.
  apply (shouldExecuteRule_monotone (TCPPortAvailable onUbuntu 6443)
           ["master"; "ubuntu"] ["worker"; "ubuntu"; "master"; "ubuntu"]).
  - intros w [<-|[<-|[]]]; cbn; auto.
  - reflexivity.
Defined.

Section WithEngine.

Variable C : Type.
Variable mapper : Rule -> C + error.
Variable ruleName : Rule -> string.
Variable asClosable : C -> bool.
Variable checkOutcome : list (CheckCall C) -> C -> bool * option error.

Lemma checked_app (l1 l2 : list (CheckCall C)) :
  checked (l1 ++ l2) = (checked l1 ++ checked l2)%list.
Proof. apply flat_map_app. Qed.

Lemma closed_app (l1 l2 : list (CheckCall C)) :
  closed (l1 ++ l2) = (closed l1 ++ closed l2)%list.
Proof. apply flat_map_app. Qed.

Lemma checked_CallCheck (l : list C) : checked (map CallCheck l) = l.
Proof. induction l as [|c l IH]; [reflexivity|]. cbn. now f_equal. Qed.

Lemma closed_CallCheck (l : list C) : closed (map (@CallCheck C) l) = [].
Proof. induction l as [|c l IH]; [reflexivity|]. exact IH. Qed.

Lemma closed_CallClose (l : list C) : closed (map CallClose l) = l.
Proof. induction l as [|c l IH]; [reflexivity|]. cbn. now f_equal. Qed.

Lemma checked_CallClose (l : list C) : checked (map (@CallClose C) l) = [].
Proof. induction l as [|c l IH]; [reflexivity|]. exact IH. Qed.

(** What the loop has done when it stops, whichever way it stops. *)
Lemma executeLoop_engine (rules : list Rule) (facts : list string)
    (results : list RuleResult) (e : Engine C) :
  exists done,
    calls (snd (executeLoop mapper ruleName asClosable checkOutcome rules facts results e)) = (calls e ++ map CallCheck done)%list /\
    closableChecks (snd (executeLoop mapper ruleName asClosable checkOutcome rules facts results e))
      = (closableChecks e ++ filter asClosable done)%list.
Proof.
  revert results e. induction rules as [|rule rules IH]; intros results e.
  - exists []. cbn. rewrite !app_nil_r. split; reflexivity.
  - cbn [executeLoop].
    destruct (shouldExecuteRule rule facts); cbn [negb]; [|apply IH].
    destruct (mapper rule) as [c|err].
    + destruct (asClosable c) eqn:Hc; cbn [calls closableChecks];
        destruct (checkOutcome (calls e) c) as [ok err];
        match goal with
        | |- context [executeLoop _ _ _ _ rules facts ?r ?e'] =>
          destruct (IH r e') as (done & Hcalls & Hclos)
        end;
        exists (c :: done); rewrite Hcalls, Hclos; cbn [calls closableChecks map filter];
        rewrite Hc, <- !app_assoc; split; reflexivity.
    + exists []. cbn. rewrite !app_nil_r. split; reflexivity.
Qed.

Lemma executeLoop_ok (rules : list Rule) (facts : list string)
    (results results' : list RuleResult) (e : Engine C) :
  fst (executeLoop mapper ruleName asClosable checkOutcome rules facts results e) = inl results' ->
  exists new,
    results' = (results ++ new)%list /\
    map Name new = map ruleName (executed rules facts) /\
    Forall (fun res => Remediation res = "") new /\
    Forall (fun rule => exists c, mapper rule = inl c) (executed rules facts).
Proof.
  revert results e. induction rules as [|rule rules IH]; intros results e H.
  - cbn in H. injection H as <-. exists []. rewrite app_nil_r.
    repeat split; constructor.
  - cbn [executeLoop] in H. unfold executed. cbn [filter].
    destruct (shouldExecuteRule rule facts); cbn [negb] in H; [|eauto].
    destruct (mapper rule) as [c|err] eqn:Hm; [|discriminate H].
    destruct (checkOutcome
                (calls (if asClosable c
                        then mkEngine (closableChecks e ++ [c]) (calls e)
                        else e)) c) as [ok err].
    apply IH in H. destruct H as (new & -> & Hnames & Hrem & Hmap).
    exists (mkRuleResult (ruleName rule) ok err "" :: new).
    rewrite <- app_assoc. cbn [map Name]. fold (executed rules facts).
    rewrite Hnames. repeat split; constructor; eauto.
Qed.

(** X3. When [ExecuteRules] succeeds it returns one result per rule whose
    conditions are met by the facts, in the order of the rules and under the
    rules' names, with an empty remediation; there are never more results
    than rules. *)
Theorem ExecuteRules_results (rules : list Rule) (facts : list string)
    (e : Engine C) (results : list RuleResult) :
  fst (ExecuteRules mapper ruleName asClosable checkOutcome rules facts e)
    = inl results ->
  map Name results = map ruleName (executed rules facts) /\
  Forall (fun res => Remediation res = "") results /\
  length results <= length rules.
Proof.
  intros H. apply executeLoop_ok in H.
  destruct H as (new & -> & Hnames & Hrem & _). cbn [app].
  split; [exact Hnames|]. split; [exact Hrem|].
  rewrite <- (length_map Name), Hnames, length_map.
  apply filter_length_le.
Qed.

(** X4. [ExecuteRules] returns an error exactly when the mapper has no check
    for one of the rules whose conditions are met; the error is the one the
    mapper gives for the first such rule. *)
Theorem ExecuteRules_error_iff (rules : list Rule) (facts : list string)
    (e : Engine C) (err : error) :
  fst (ExecuteRules mapper ruleName asClosable checkOutcome rules facts e)
    = inr err <->
  exists before rule after,
    executed rules facts = (before ++ rule :: after)%list /\
    Forall (fun r => exists c, mapper r = inl c) before /\
    mapper rule = inr err.
Proof.
  unfold ExecuteRules. generalize (@nil RuleResult) as results. revert e.
  induction rules as [|rule rules IH]; intros e results.
  - cbn. split; [discriminate|].
    intros (before & r & after & H & _). destruct before; discriminate H.
  - cbn [executeLoop]. unfold executed. cbn [filter].
    destruct (shouldExecuteRule rule facts); cbn [negb]; [|apply IH].
    fold (executed rules facts).
    destruct (mapper rule) as [c|err'] eqn:Hm.
    + destruct (checkOutcome
                  (calls (if asClosable c
                          then mkEngine (closableChecks e ++ [c]) (calls e)
                          else e)) c) as [ok err'].
      rewrite IH. split.
      * intros (before & r & after & H & Hb & Hr).
        exists (rule :: before), r, after. rewrite H.
        repeat split; auto. constructor; eauto.
      * intros (before & r & after & H & Hb & Hr).
        destruct before as [|b before].
        -- cbn in H. injection H as <- _. congruence.
        -- cbn in H. injection H as <- H. inversion Hb; subst.
           exists before, r, after. auto.
    + cbn [fst]. split.
      * intros H. injection H as <-.
        exists [], rule, (executed rules facts). repeat split; auto.
      * intros (before & r & after & H & Hb & Hr).
        destruct before as [|b before].
        -- cbn in H. injection H as <- _. congruence.
        -- cbn in H. injection H as <- _. inversion Hb as [|? ? [c Hc] ?]; subst.
           congruence.
Qed.

(** X5. Whether [ExecuteRules] succeeds or returns an error, every check it
    has run is recorded: the closable checks of the engine afterwards are
    those it held before followed by the closable ones among the checks that
    were run, in the order in which they were run. *)
Theorem ExecuteRules_registers_closables (rules : list Rule)
    (facts : list string) (e : Engine C) :
  let e' := snd (ExecuteRules mapper ruleName asClosable checkOutcome rules facts e) in
  exists new,
    calls e' = (calls e ++ new)%list /\
    closed new = [] /\
    closableChecks e' = (closableChecks e ++ filter asClosable (checked new))%list.
Proof.
  cbv zeta. unfold ExecuteRules.
  destruct (executeLoop_engine rules facts [] e) as (done & Hcalls & Hclos).
  exists (map CallCheck done).
  rewrite Hcalls, Hclos, checked_CallCheck, closed_CallCheck. repeat split.
Qed.

Lemma closeLoop_calls (cs : list C) (done : list (CheckCall C)) :
  fold_left (fun done c => done ++ [CallClose c])%list cs done
  = (done ++ map CallClose cs)%list.
Proof.
  revert done. induction cs as [|c cs IH]; intros done; cbn.
  - now rewrite app_nil_r.
  - rewrite IH, <- app_assoc. reflexivity.
Qed.

(** X6. [CloseChecks] calls [Close] once on every closable check the engine
    holds, in the order in which they were recorded, and returns no error.
    It keeps the checks it has closed: a second call closes each of them a
    second time. *)
Theorem CloseChecks_closes_all (e : Engine C) :
  let e1 := snd (CloseChecks e) in
  let e2 := snd (CloseChecks e1) in
  fst (CloseChecks e) = None /\
  calls e1 = (calls e ++ map CallClose (closableChecks e))%list /\
  closableChecks e1 = closableChecks e /\
  calls e2 = (calls e ++ map CallClose (closableChecks e)
                      ++ map CallClose (closableChecks e))%list.
Proof.
  cbv zeta. unfold CloseChecks. cbn [fst snd calls closableChecks].
  rewrite !closeLoop_calls, <- app_assoc. repeat split.
Qed.

(** X7. Executing rules on a fresh engine and then closing: every closable
    check that was run is closed, once and in the order of the runs, also
    when the execution stopped on an error. *)
Theorem ExecuteRules_then_CloseChecks (rules : list Rule) (facts : list string) :
  let e1 := snd (ExecuteRules mapper ruleName asClosable checkOutcome rules facts
                   (mkEngine [] [])) in
  let e2 := snd (CloseChecks e1) in
  closed (calls e2) = filter asClosable (checked (calls e1)) /\
  checked (calls e2) = checked (calls e1).
Proof.
  cbv zeta. unfold ExecuteRules, CloseChecks. cbn [snd calls closableChecks].
  destruct (executeLoop_engine rules facts [] (mkEngine [] []))
    as (done & Hcalls & Hclos).
  rewrite closeLoop_calls, Hcalls, Hclos. cbn [calls closableChecks app].
  rewrite checked_app, closed_app, checked_CallCheck, closed_CallCheck,
    checked_CallClose, closed_CallClose, app_nil_r.
  split; reflexivity.
Qed.

End WithEngine.

Lemma ExecuteRules_results_witness :
  exists results,
    fst (ExecuteRules (GetCheckForRule tt) exampleName exampleClosable
           exampleOutcome exampleRules ["master"; "ubuntu"] emptyEngine)
      = inl results /\
    map Name results
      = ["Package Installed: docker"; "Tcp Port Available"; "Tcp Port Accessible"] /\
    length results <= 4.
Proof.
  eexists. split; [reflexivity|].
  destruct (ExecuteRules_results (Check unit) (GetCheckForRule tt) exampleName
              exampleClosable exampleOutcome exampleRules ["master"; "ubuntu"]
              emptyEngine _ eq_refl) as (Hn & _ & Hl).
  split; [exact Hn | exact Hl].
Defined.

(** X8. With the default mapper, [ExecuteRules] returns an error exactly when
    one of the rules whose conditions are met is of a type other than the six
    that the mapper knows. *)
Theorem ExecuteRules_default_mapper (PackageManager : Type) (pm : PackageManager)
    (ruleName : Rule -> string) (asClosable : Check PackageManager -> bool)
    (checkOutcome : list (CheckCall (Check PackageManager)) ->
                    Check PackageManager -> bool * option error)
    (rules : list Rule) (facts : list string) (e : Engine (Check PackageManager)) :
  (exists results,
     fst (ExecuteRules (GetCheckForRule pm) ruleName asClosable checkOutcome
            rules facts e) = inl results) <->
  forallb supported (executed rules facts) = true.
Proof.
  unfold ExecuteRules. generalize (@nil RuleResult) as results.
  revert e. induction rules as [|rule rules IH]; intros e results.
  - cbn. split; eauto.
  - cbn [executeLoop]. unfold executed. cbn [filter].
    destruct (shouldExecuteRule rule facts); cbn [negb]; [|apply IH].
    fold (executed rules facts). cbn [forallb].
    destruct rule; cbn [GetCheckForRule supported andb];
      try match goal with
          | |- context [checkOutcome ?a ?b] => destruct (checkOutcome a b)
          end;
      try apply IH.
    split; [intros [r H]; discriminate H | discriminate].
Qed.

Lemma ExecuteRules_default_mapper_witness :
  exists results,
    fst (ExecuteRules (GetCheckForRule tt) exampleName exampleClosable
           exampleOutcome rulesWithCustom ["ubuntu"] emptyEngine) = inl results.
Proof.
  apply (ExecuteRules_default_mapper unit tt exampleName exampleClosable
           exampleOutcome rulesWithCustom ["ubuntu"] emptyEngine).
  reflexivity.
Defined.

Lemma ExecuteRules_error_iff_witness :
  fst (ExecuteRules (GetCheckForRule tt) exampleName exampleClosable
         exampleOutcome rulesWithCustom ["master"; "ubuntu"] emptyEngine)
  = inr "Rule of type Custom is not supported".
Proof.
  apply (ExecuteRules_error_iff (Check unit) (GetCheckForRule tt) exampleName
           exampleClosable exampleOutcome rulesWithCustom ["master"; "ubuntu"]
           emptyEngine).
  exists [PackageInstalled (mkRuleMeta "Rule" []) "docker" "1.12"], customRule,
         [TCPPortAvailable onUbuntu 6443].
  split; [reflexivity|]. split; [|reflexivity].
  constructor; [|constructor]. eexists. reflexivity.
Defined.

End Inspector.

(** ** More on [transition] *)

Ltac no_calls :=
  exists []; cbn [fst snd ret]; rewrite ?app_nil_r;
  repeat match goal with |- _ /\ _ => split end;
  try reflexivity; try (constructor; fail); auto;
  try (left; reflexivity);
  try (right; cbn; repeat (first [left; reflexivity | right]); fail).

(** Everything [transition] can do to a record and to the state around
    it. *)
Lemma transition_effects (env : Env) (cluster : Cluster) (s : State) :
  let r := fst (transition env cluster s) in
  let s' := snd (transition env cluster s) in
  exists calls,
    Spec r = Spec cluster /\
    db s' = db s /\
    clusterName (ctl s') = clusterName (ctl s) /\
    clusterSpec (ctl s') = clusterSpec (ctl s) /\
    trace s' = (trace s ++ calls)%list /\
    Forall is_action calls /\
    (WaitingForManualRetry (Status cluster) = true ->
     WaitingForManualRetry (Status r) = true) /\
    (CurrentState (Status r) = CurrentState (Status cluster) \/
     In (CurrentState (Status r)) assignedStates) /\
    (ClusterIP (Status r) = ClusterIP (Status cluster) \/
     (CurrentState (Status cluster) = provisioning /\
      exists p',
        provision.Provision (newProvisioner env cluster) (installPlan (ctl s))
          = inl p' /\
        ClusterIP (Status r) = install.MasterLoadBalancedFQDN p' /\
        installPlan (ctl s') = p')).
Proof.
  cbv zeta. unfold transition.
  destruct (DesiredState (Spec cluster) =? CurrentState (Status cluster));
    [no_calls|].
  destruct (CurrentState (Status cluster) =? "")%string; [no_calls|].
  destruct (CurrentState (Status cluster) =? planning).
  { run_monad.
    destruct (buildPlan _ _ _ _); cbn [fst snd]; no_calls. }
  destruct (CurrentState (Status cluster) =? planned); [no_calls|].
  destruct (CurrentState (Status cluster) =? planningFailed);
    [destruct (DesiredState (Spec cluster) =? destroyed); no_calls|].
  destruct (String.eqb_spec (CurrentState (Status cluster)) provisioning) as [Hp|_].
  { run_monad.
    destruct (provision.Provision _ _) as [p'|e] eqn:Hprov; cbn [fst snd].
    - exists [EvProvision (installPlan (ctl s))].
      repeat match goal with |- _ /\ _ => split end; auto.
      + repeat constructor.
      + right. cbn. auto 10.
      + right. split; [exact Hp|]. exists p'. auto.
    - exists [EvProvision (installPlan (ctl s))].
      repeat match goal with |- _ /\ _ => split end; auto.
      + repeat constructor.
      + right. cbn. auto 15. }
  destruct (CurrentState (Status cluster) =? provisioned);
    [destruct (DesiredState (Spec cluster) =? destroyed); no_calls|].
  destruct (CurrentState (Status cluster) =? provisionFailed);
    [destruct (DesiredState (Spec cluster) =? destroyed); no_calls|].
  destruct (CurrentState (Status cluster) =? destroying).
  { run_monad.
    destruct (provision.Destroy _ _); cbn [fst snd];
      exists [EvDestroy (clusterName (ctl s))];
      repeat match goal with |- _ /\ _ => split end; auto;
      try (repeat constructor; fail); right; cbn; auto 15. }
  destruct (CurrentState (Status cluster) =? installing).
  { rewrite install_eq.
    repeat match goal with
           | |- context [if ?b then _ else _] => destruct b
           end;
      cbn [fst snd ctl db trace]; rewrite <- ?app_assoc;
      eexists;
      (repeat match goal with |- _ /\ _ => split end);
      try reflexivity; auto;
      try (repeat constructor; fail);
      try (destruct s as [[? ? ?] ? ?]; reflexivity);
      right; cbn; auto 15. }
  destruct (CurrentState (Status cluster) =? installFailed);
    [destruct (DesiredState (Spec cluster) =? destroyed); no_calls|].
  destruct (CurrentState (Status cluster) =? installed);
    [destruct (DesiredState (Spec cluster) =? destroyed); no_calls|].
  no_calls.
Qed.

(** X9. [transition] writes to the status only: the spec of the record it
    returns is the spec it was given.  It does not touch the store, nor the
    name and the cached spec of the controller, and it keeps the calls made
    so far, adding only calls to the provisioner and to the executor. *)
Theorem transition_frame (env : Env) (cluster : Cluster) (s : State) :
  let r := fst (transition env cluster s) in
  let s' := snd (transition env cluster s) in
  Spec r = Spec cluster /\
  db s' = db s /\
  clusterName (ctl s') = clusterName (ctl s) /\
  clusterSpec (ctl s') = clusterSpec (ctl s) /\
  exists calls, trace s' = (trace s ++ calls)%list /\ Forall is_action calls.
Proof.
  destruct (transition_effects env cluster s)
    as (calls & H1 & H2 & H3 & H4 & H5 & H6 & _).
  cbv zeta. repeat split; auto. exists calls. auto.
Qed.

(** X10. [transition] never clears the retry flag: a record that waits for a
    manual retry still waits after any transition, whatever the actions
    answer. *)
Theorem transition_never_clears_retry (env : Env) (cluster : Cluster) (s : State) :
  WaitingForManualRetry (Status cluster) = true ->
  WaitingForManualRetry (Status (fst (transition env cluster s))) = true.
Proof.
  destruct (transition_effects env cluster s)
    as (calls & _ & _ & _ & _ & _ & _ & H & _).
  exact H.
Qed.

Lemma transition_never_clears_retry_witness :
  WaitingForManualRetry
    (Status (fst (transition okEnv
                    (mkCluster (exampleSpec installed)
                               (mkClusterStatus installFailed true ""))
                    (exampleState installFailed installed)))) = true.
Proof.
  apply (transition_never_clears_retry okEnv
           (mkCluster (exampleSpec installed)
                      (mkClusterStatus installFailed true ""))
           (exampleState installFailed installed)).
  reflexivity.
Defined.

(** X11. The lifecycle states are closed under [transition], and the states
    [modifying] and [modifyFailed] are never assigned: a record is in one of
    them after a transition only if it was in it before. *)
Theorem transition_stays_in_lifecycle (env : Env) (cluster : Cluster) (s : State) :
  let current' := CurrentState (Status (fst (transition env cluster s))) in
  (In (CurrentState (Status cluster)) lifecycle_states ->
   In current' lifecycle_states) /\
  (current' = modifying \/ current' = modifyFailed ->
   current' = CurrentState (Status cluster)).
Proof.
  destruct (transition_effects env cluster s)
    as (calls & _ & _ & _ & _ & _ & _ & _ & H & _).
  cbv zeta. split.
  - intros Hin. destruct H as [-> | H]; [exact Hin|].
    revert H. generalize (CurrentState (Status (fst (transition env cluster s)))).
    intros st Hst. cbn in Hst.
    repeat (destruct Hst as [<- | Hst]; [cbn; auto 20|]). destruct Hst.
  - intros Hm. destruct H as [H | H]; [exact H|]. exfalso.
    cbn in H.
    destruct Hm as [Hm | Hm]; rewrite Hm in H;
      repeat (destruct H as [H | H]; [discriminate H|]); destruct H.
Qed.

Lemma transition_stays_in_lifecycle_witness :
  In (CurrentState (Status (fst (transition failEnv
                                   (exampleCluster destroying destroyed)
                                   (exampleState destroying destroyed)))))
     lifecycle_states.
Proof.
  apply (transition_stays_in_lifecycle failEnv
           (exampleCluster destroying destroyed)
           (exampleState destroying destroyed)).
  cbn. auto 20.
Defined.

(** X12. A successful provisioning records the endpoint: when [transition]
    runs on a record in state [provisioning] and [Provision] returns a plan,
    the record becomes [provisioned], its cluster endpoint is the
    load-balanced name of that plan, and that plan becomes the controller's
    plan.  In every other case (another state, the desired state reached, or
    a failed [Provision]) the endpoint is left as it was. *)
Theorem transition_endpoint (env : Env) (cluster : Cluster) (s : State) :
  let r := fst (transition env cluster s) in
  let s' := snd (transition env cluster s) in
  (forall p',
     CurrentState (Status cluster) = provisioning ->
     DesiredState (Spec cluster) <> provisioning ->
     provision.Provision (newProvisioner env cluster) (installPlan (ctl s))
       = inl p' ->
     CurrentState (Status r) = provisioned /\
     ClusterIP (Status r) = install.MasterLoadBalancedFQDN p' /\
     installPlan (ctl s') = p') /\
  (CurrentState (Status cluster) <> provisioning \/
   DesiredState (Spec cluster) = CurrentState (Status cluster) \/
   (exists e,
      provision.Provision (newProvisioner env cluster) (installPlan (ctl s))
        = inr e) ->
   ClusterIP (Status r) = ClusterIP (Status cluster)).
Proof.
  cbv zeta. split.
  - intros p' Hc Hd Hprov.
    assert (Hne : DesiredState (Spec cluster) <> CurrentState (Status cluster))
      by (rewrite Hc; exact Hd).
    destruct (transition_dispatch env cluster Hne) as (_ & Hdisp & _).
    rewrite (Hdisp Hc). run_monad. rewrite Hprov. cbn. auto.
  - intros Hcase.
    destruct (transition_effects env cluster s)
      as (calls & _ & _ & _ & _ & _ & _ & _ & _ & [H | (Hc & p' & Hprov & _)]);
      [exact H|].
    destruct Hcase as [Hn | [Heq | [e He]]].
    + contradiction.
    + unfold transition. rewrite Heq, String.eqb_refl. reflexivity.
    + congruence.
Qed.

Lemma transition_endpoint_witness :
  let r := fst (transition okEnv (exampleCluster provisioning installed)
                  (exampleState provisioning installed)) in
  let s' := snd (transition okEnv (exampleCluster provisioning installed)
                   (exampleState provisioning installed)) in
  CurrentState (Status r) = provisioned /\
  ClusterIP (Status r) = "lb.example.com" /\
  install.MasterLoadBalancedFQDN (installPlan (ctl s')) = "lb.example.com".
Proof.
  cbv zeta.
  destruct (transition_endpoint okEnv (exampleCluster provisioning installed)
              (exampleState provisioning installed)) as [Hok _].
  destruct (Hok (install.mkPlan (install.Cluster emptyPlan) "lb.example.com"
                   (install.PlanProvisioner emptyPlan)
                   (install.CNIProvider emptyPlan) (install.Body emptyPlan)))
    as (Hc & Hip & Hplan).
  - reflexivity.
  - discriminate.
  - reflexivity.
  - split; [exact Hc|]. split; [exact Hip|]. rewrite Hplan. reflexivity.
Defined.

(** X13. Outside of the four states [planning], [provisioning], [destroying]
    and [installing], a transition is pure bookkeeping: no call is made and
    the controller is left as it was. *)
Theorem transition_bookkeeping (env : Env) (cluster : Cluster) (s : State) :
  ~ In (CurrentState (Status cluster)) actionStates ->
  snd (transition env cluster s) = s.
Proof.
  intros Hnot. unfold transition.
  destruct (DesiredState (Spec cluster) =? CurrentState (Status cluster));
    [reflexivity|].
  destruct (CurrentState (Status cluster) =? "")%string; [reflexivity|].
  destruct (String.eqb_spec (CurrentState (Status cluster)) planning) as [H|_];
    [exfalso; apply Hnot; rewrite H; cbn; auto|].
  destruct (CurrentState (Status cluster) =? planned); [reflexivity|].
  destruct (CurrentState (Status cluster) =? planningFailed);
    [destruct (DesiredState (Spec cluster) =? destroyed); reflexivity|].
  destruct (String.eqb_spec (CurrentState (Status cluster)) provisioning) as [H|_];
    [exfalso; apply Hnot; rewrite H; cbn; auto|].
  destruct (CurrentState (Status cluster) =? provisioned);
    [destruct (DesiredState (Spec cluster) =? destroyed); reflexivity|].
  destruct (CurrentState (Status cluster) =? provisionFailed);
    [destruct (DesiredState (Spec cluster) =? destroyed); reflexivity|].
  destruct (String.eqb_spec (CurrentState (Status cluster)) destroying) as [H|_];
    [exfalso; apply Hnot; rewrite H; cbn; auto|].
  destruct (String.eqb_spec (CurrentState (Status cluster)) installing) as [H|_];
    [exfalso; apply Hnot; rewrite H; cbn; auto|].
  destruct (CurrentState (Status cluster) =? installFailed);
    [destruct (DesiredState (Spec cluster) =? destroyed); reflexivity|].
  destruct (CurrentState (Status cluster) =? installed);
    [destruct (DesiredState (Spec cluster) =? destroyed); reflexivity|].
  reflexivity.
Qed.

Lemma transition_bookkeeping_witness :
  snd (transition failEnv (exampleCluster provisionFailed destroyed)
         (exampleState provisionFailed destroyed))
  = exampleState provisionFailed destroyed.
Proof.
  apply (transition_bookkeeping failEnv (exampleCluster provisionFailed destroyed)
           (exampleState provisionFailed destroyed)).
  cbn. intros [H|[H|[H|[H|[]]]]]; discriminate H.
Defined.

(** The name and the password of a plan that [buildPlan] returns. *)
Lemma buildPlan_name_password (pk : install.Package) (name : string)
    (sp : ClusterSpec) (password : string) (p : install.Plan) :
  buildPlan pk name sp password = inl p ->
  install.Name (install.Cluster p) = name /\
  (keeps_credential pk (planTemplateOf sp password) ->
   install.AdminPassword (install.Cluster p) = password).
Proof.
  unfold buildPlan. fold (planTemplateOf sp password).
  destruct (install.WritePlanTemplate pk (planTemplateOf sp password))
    as [written|e] eqn:Ew; [|discriminate].
  destruct (install.Read pk written) as [p0|e] eqn:Er; [|discriminate].
  intros H.
  assert (Hp : p = install.setAWSOptions
                     (install.setProvisioner (install.setName p0 name)
                        (install.mkProvisioner (Provider (Provisioner sp)) None))
                     (Some (install.mkAWSProvisionerOptions [])) \/
               p = install.setCNIProvider
                     (install.setProvisioner (install.setName p0 name)
                        (install.mkProvisioner (Provider (Provisioner sp)) None))
                     "weave" \/
               p = install.setProvisioner (install.setName p0 name)
                     (install.mkProvisioner (Provider (Provisioner sp)) None)).
  { destruct (_ =? "aws"); [left; congruence|].
    destruct (_ =? "azure"); [right; left; congruence | right; right; congruence]. }
  split.
  - destruct Hp as [-> | [-> | ->]]; reflexivity.
  - intros Hkeep. pose proof (Hkeep written p0 Ew Er) as Hpw. cbn in Hpw.
    destruct Hp as [-> | [-> | ->]]; exact Hpw.
Qed.

(** X14. A successful [plan] makes no call, moves the record to [planned]
    and replaces the controller's plan by the one built: a plan under the
    controller's cluster name, built from the password of the plan it
    replaces.  With rendering and reading that keep the credential, planning
    again does not change the admin password. *)
Theorem plan_keeps_name_and_credential (env : Env) (cluster : Cluster) (s : State)
    (p : install.Plan) :
  let c := ctl s in
  let password := install.AdminPassword (install.Cluster (installPlan c)) in
  buildPlan (pkg env) (clusterName c) (Spec cluster) password = inl p ->
  plan env cluster s =
    (setCurrentState cluster planned,
     mkState (mkController (clusterName c) (clusterSpec c) p) (db s) (trace s)) /\
  install.Name (install.Cluster p) = clusterName c /\
  (keeps_credential (pkg env) (planTemplateOf (Spec cluster) password) ->
   install.AdminPassword (install.Cluster p) = password).
Proof.
  cbv zeta. intros Hb. split.
  - run_monad. rewrite Hb. reflexivity.
  - pose proof (buildPlan_name_password (pkg env) (clusterName (ctl s))
                  (Spec cluster)
                  (install.AdminPassword (install.Cluster (installPlan (ctl s))))
                  p Hb) as [Hn Hp].
    split; [exact Hn | exact Hp].
Qed.

Lemma plan_keeps_name_and_credential_witness :
  let s := mkState (mkController "c1" (exampleSpec installed)
                      (install.mkPlan (install.mkPlanCluster "c1" "s3cret") ""
                         (install.mkProvisioner "aws" None) "calico" []))
                   None [] in
  exists p,
    installPlan (ctl (snd (plan okEnv (exampleCluster planning installed) s))) = p /\
    install.Name (install.Cluster p) = "c1" /\
    install.AdminPassword (install.Cluster p) = "s3cret".
Proof.
  cbv zeta.
  destruct (plan_keeps_name_and_credential okEnv
              (exampleCluster planning installed)
              (mkState (mkController "c1" (exampleSpec installed)
                          (install.mkPlan (install.mkPlanCluster "c1" "s3cret") ""
                             (install.mkProvisioner "aws" None) "calico" []))
                       None [])
              (install.mkPlan (install.mkPlanCluster "c1" "s3cret") ""
                 (install.mkProvisioner "aws"
                    (Some (install.mkAWSProvisionerOptions []))) "calico" [])
              eq_refl) as (Hplan & Hn & Hp).
  eexists. rewrite Hplan. cbn [snd ctl installPlan].
  split; [reflexivity|]. split; [exact Hn|].
  apply Hp. intros written p0 Hw Hr. cbn in Hw, Hr.
  injection Hw as <-. injection Hr as <-. reflexivity.
Defined.

(** ** More on the loop *)

Lemma controller_eta (c : clusterController) :
  c = mkController (clusterName c) (clusterSpec c) (installPlan c).
Proof. destruct c; reflexivity. Qed.

(** The ways in which a cycle can go. *)
Lemma cycle_cases (env : Env) (s : State) :
  let name := clusterName (ctl s) in
  (cycle env s = (Continue, afterGet s) /\
   (db s = None \/ getFails env = true \/
    exists cluster0,
      db s = Some cluster0 /\
      (CurrentState (Status (planAgain (ctl s) cluster0))
         = DesiredState (Spec (planAgain (ctl s) cluster0)) \/
       WaitingForManualRetry (Status (planAgain (ctl s) cluster0)) = true))) \/
  exists cluster0 t actions plan',
    let cluster := planAgain (ctl s) cluster0 in
    let stored := setStatus (reread env cluster0) (Status t) in
    let upTo := (trace s ++ callsToReread name cluster actions)%list in
    let kept := mkController name (clusterSpec (ctl s)) plan' in
    let updated := mkController name (Spec stored) plan' in
    db s = Some cluster0 /\
    getFails env = false /\
    WaitingForManualRetry (Status cluster) = false /\
    CurrentState (Status cluster) <> DesiredState (Spec cluster) /\
    Forall is_action actions /\
    transition env cluster
      (mkState (ctl s) (db s) (trace s ++ [EvGet name; EvTransition cluster]))
    = (t, mkState kept (db s)
            (trace s ++ [EvGet name; EvTransition cluster] ++ actions)) /\
    ((secondGetFails env = true /\
      cycle env s = (Continue, mkState kept (Some (reread env cluster0)) upTo))
     \/
     (secondGetFails env = false /\ putFails env = true /\
      cycle env s =
        (Continue, mkState kept (Some (reread env cluster0))
                           (upTo ++ [EvPut name stored])))
     \/
     (secondGetFails env = false /\ putFails env = false /\
      CurrentState (Status stored) <> destroyed /\
      cycle env s =
        (Continue, mkState updated (Some stored) (upTo ++ [EvPut name stored])))
     \/
     (secondGetFails env = false /\ putFails env = false /\
      CurrentState (Status stored) = destroyed /\ deleteFails env = true /\
      cycle env s =
        (Continue, mkState updated (Some stored)
                           (upTo ++ [EvPut name stored; EvDelete name])))
     \/
     (secondGetFails env = false /\ putFails env = false /\
      CurrentState (Status stored) = destroyed /\ deleteFails env = false /\
      cycle env s =
        (Return, mkState updated None
                         (upTo ++ [EvPut name stored; EvDelete name])))).
Proof.
  cbv zeta.
  destruct (db s) as [cluster0|] eqn:Hdb;
    [|left; split; [apply cycle_get_fails; now left | now left]].
  destruct (getFails env) eqn:Hget;
    [left; split; [apply cycle_get_fails; now right | right; now left]|].
  rewrite (cycle_get_ok env s cluster0 Hdb Hget).
  set (cluster := planAgain (ctl s) cluster0).
  destruct ((CurrentState (Status cluster) =? DesiredState (Spec cluster))
            || WaitingForManualRetry (Status cluster)) eqn:Hidle.
  { left. split; [unfold reconcile; rewrite Hidle; reflexivity|].
    right. right. exists cluster0. split; [reflexivity|].
    apply orb_true_elim in Hidle. destruct Hidle as [H|H]; [left | now right].
    now apply String.eqb_eq. }
  apply orb_false_elim in Hidle. destruct Hidle as [Hne Hw].
  apply String.eqb_neq in Hne.
  right.
  set (s1 := mkState (ctl s) (Some cluster0)
               (trace s ++ [EvGet (clusterName (ctl s)); EvTransition cluster])).
  destruct (transition_effects env cluster s1)
    as (actions & Hspec & Hdb2 & Hname & Hcached & Htrace & Hact & _).
  destruct (transition env cluster s1) as [t s2] eqn:Ht. cbn [fst snd] in *.
  exists cluster0, t, actions, (installPlan (ctl s2)).
  split; [reflexivity|]. split; [reflexivity|]. split; [exact Hw|].
  split; [exact Hne|]. split; [exact Hact|].
  split.
  { pose proof Ht as Ht'. unfold s1, cluster in Ht'. rewrite Ht'. f_equal.
    destruct s2 as [c2 db2 tr2]. cbn [ctl db trace] in *.
    rewrite (controller_eta c2), Hname, Hcached, Hdb2, Htrace.
    unfold s1. cbn [ctl db trace]. rewrite <- app_assoc. reflexivity. }
  assert (Hrec : reconcile env cluster (afterGet s) =
    (concurrentEdit env ;;;
     x <- storeGet (secondGetFails env) ;;
     match x with
     | None => ret Continue
     | Some cl2 =>
       let cl2 := setStatus cl2 (Status t) in
       err <- storePut env cl2 ;;
       if err then ret Continue
       else
         setClusterSpec (Spec cl2) ;;;
         if CurrentState (Status cl2) =? destroyed then
           err <- storeDelete env ;;
           if err then ret Continue else ret Return
         else ret Continue
     end) s2).
  { unfold reconcile.
    destruct ((CurrentState (Status cluster) =? DesiredState (Spec cluster))
              || WaitingForManualRetry (Status cluster)) eqn:Hidle.
    - apply orb_true_elim in Hidle. destruct Hidle as [H|H].
      + apply String.eqb_eq in H. contradiction.
      + congruence.
    - unfold bind at 1. unfold emit at 1. unfold afterGet.
      cbn [ctl db trace]. rewrite Hdb, <- app_assoc. cbn [app]. fold s1.
      unfold bind at 1. rewrite Ht. unfold bind. reflexivity. }
  rewrite Hrec. clear Hrec.
  subst s1. cbn [ctl db trace] in *.
  unfold concurrentEdit, callsToReread, reread.
  unfold bind at 1. rewrite Hdb2.
  destruct (editDuringTransition env) as [sp|];
    run_monad;
    rewrite ?Hdb2, Htrace, (controller_eta (ctl s2)), Hname, Hcached;
    cbn [clusterName clusterSpec installPlan setStatus setSpec Status Spec
         CurrentState];
    (destruct (secondGetFails env);
     [left; split; [reflexivity|]; rewrite <- !app_assoc; reflexivity|]);
    right;
    (destruct (putFails env);
     [left; split; [reflexivity|]; split; [reflexivity|];
      cbn [fst snd ctl db trace clusterName clusterSpec installPlan];
      rewrite <- !app_assoc; reflexivity|]);
    right;
    (destruct (String.eqb_spec (CurrentState (Status t)) destroyed) as [Hd|Hd];
     [right;
      destruct (deleteFails env); [left | right];
      (split; [reflexivity|]); (split; [reflexivity|]); (split; [exact Hd|]);
      (split; [reflexivity|]);
      cbn [fst snd ctl db trace clusterName clusterSpec installPlan];
      rewrite <- !app_assoc; reflexivity
     |left; split; [reflexivity|]; split; [reflexivity|]; split; [exact Hd|];
      cbn [fst snd ctl db trace clusterName clusterSpec installPlan];
      rewrite <- !app_assoc; reflexivity]).
Qed.

Ltac split_cycle env s :=
  let HA := fresh "HA" in
  let Hwhy := fresh "Hwhy" in
  destruct (cycle_cases env s)
    as [[HA Hwhy]
       | (cluster0 & t & actions & plan' & Hdb & Hget & Hw & Hne & Hact & Ht
          & [(H2 & Hc) | [(H2 & Hp & Hc) | [(H2 & Hp & Hd & Hc)
            | [(H2 & Hp & Hd & Hdel & Hc) | (H2 & Hp & Hd & Hdel & Hc)]]]])];
  cbv zeta in *.

(** X15. What a cycle stores is the record it reads again after the
    transition, with the status replaced by the one the transition returned:
    the spec stored is the re-read one, so an edit made while the transition
    ran is kept and not overwritten by the spec read at the top of the cycle.
    After a successful [Put] the controller's cached spec is the stored one.
    On an empty store a cycle only reads, and stores nothing. *)
Theorem cycle_puts_reread_record (env : Env) (s : State) :
  let name := clusterName (ctl s) in
  let s' := snd (cycle env s) in
  exists calls,
    trace s' = (trace s ++ calls)%list /\
    (db s = None -> calls = [EvGet name] /\ db s' = None) /\
    (forall cluster0 n r,
       db s = Some cluster0 ->
       In (EvPut n r) calls ->
       let cluster := planAgain (ctl s) cluster0 in
       let t := fst (transition env cluster
                       (mkState (ctl s) (db s)
                          (trace s ++ [EvGet name; EvTransition cluster]))) in
       n = name /\
       r = setStatus (reread env cluster0) (Status t) /\
       (putFails env = false ->
        clusterSpec (ctl s') = Spec r /\ (db s' = Some r \/ db s' = None))).
Proof.
  assert (Hnot : forall cluster actions n r,
            Forall is_action actions ->
            ~ In (EvPut n r)
                (callsToReread (clusterName (ctl s)) cluster actions)).
  { intros cluster actions n r Hact Hin. unfold callsToReread in Hin.
    cbn in Hin. destruct Hin as [H | [H | Hin]]; try discriminate H.
    apply in_app_or in Hin. destruct Hin as [Hin | [H | []]];
      [|discriminate H].
    rewrite Forall_forall in Hact. exact (Hact _ Hin). }
  assert (Hput : forall cluster actions n r stored tail,
            Forall is_action actions ->
            (tail = [] \/ tail = [EvDelete (clusterName (ctl s))]) ->
            In (EvPut n r)
               (callsToReread (clusterName (ctl s)) cluster actions
                ++ EvPut (clusterName (ctl s)) stored :: tail) ->
            n = clusterName (ctl s) /\ r = stored).
  { intros cluster actions n r stored tail Hact Htail Hin.
    apply in_app_or in Hin. destruct Hin as [Hin | [H | Hin]].
    - exfalso. exact (Hnot _ _ _ _ Hact Hin).
    - injection H as <- <-. auto.
    - exfalso. destruct Htail as [-> | ->]; [destruct Hin|].
      destruct Hin as [H | []]. discriminate H. }
  split_cycle env s.
  - exists [EvGet (clusterName (ctl s))]. rewrite HA.
    cbn [snd afterGet db trace ctl].
    split; [reflexivity|]. split; [auto|].
    intros c0 n r _ [H | []]. discriminate H.
  - eexists. rewrite Hc. cbn [snd db trace ctl clusterSpec].
    split; [reflexivity|]. split; [congruence|].
    intros c0 n r _ Hin. exfalso. exact (Hnot _ _ _ _ Hact Hin).
  - eexists. rewrite Hc. cbn [snd db trace ctl clusterSpec].
    split; [rewrite <- app_assoc; reflexivity|]. split; [congruence|].
    intros c0 n r Hdb0 Hin.
    assert (c0 = cluster0) by congruence. subst c0.
    destruct (Hput _ _ _ _ _ [] Hact (or_introl eq_refl) Hin) as [-> ->].
    rewrite Hdb in Ht. rewrite Hdb, Ht. cbn [fst].
    split; [reflexivity|]. split; [reflexivity|]. congruence.
  - eexists. rewrite Hc. cbn [snd db trace ctl clusterSpec].
    split; [rewrite <- app_assoc; reflexivity|]. split; [congruence|].
    intros c0 n r Hdb0 Hin.
    assert (c0 = cluster0) by congruence. subst c0.
    destruct (Hput _ _ _ _ _ [] Hact (or_introl eq_refl) Hin) as [-> ->].
    rewrite Hdb in Ht. rewrite Hdb, Ht. cbn [fst].
    split; [reflexivity|]. split; [reflexivity|]. auto.
  - eexists. rewrite Hc. cbn [snd db trace ctl clusterSpec].
    split; [rewrite <- app_assoc; reflexivity|]. split; [congruence|].
    intros c0 n r Hdb0 Hin.
    assert (c0 = cluster0) by congruence. subst c0.
    destruct (Hput _ _ _ _ _ _ Hact (or_intror eq_refl) Hin) as [-> ->].
    rewrite Hdb in Ht. rewrite Hdb, Ht. cbn [fst].
    split; [reflexivity|]. split; [reflexivity|]. auto.
  - eexists. rewrite Hc. cbn [snd db trace ctl clusterSpec].
    split; [rewrite <- app_assoc; reflexivity|]. split; [congruence|].
    intros c0 n r Hdb0 Hin.
    assert (c0 = cluster0) by congruence. subst c0.
    destruct (Hput _ _ _ _ _ _ Hact (or_intror eq_refl) Hin) as [-> ->].
    rewrite Hdb in Ht. rewrite Hdb, Ht. cbn [fst].
    split; [reflexivity|]. split; [reflexivity|]. auto.
Qed.

(** The desired state of an installed cluster, cached as [destroyed], is
    edited to [installed] while the controller moves the record to
    [destroying]: the record stored has the edited spec. *)
Lemma cycle_puts_reread_record_witness :
  let s := exampleState installed destroyed in
  exists r,
    In (EvPut "c1" r) (trace (snd (cycle raceEnv s))) /\
    Spec r = exampleSpec installed /\
    CurrentState (Status r) = destroying /\
    clusterSpec (ctl (snd (cycle raceEnv s))) = exampleSpec installed.
Proof.
  cbv zeta.
  destruct (cycle_puts_reread_record raceEnv (exampleState installed destroyed))
    as (calls & Htr & _ & Hput).
  cbn [exampleState trace app] in Htr.
  assert (Hin : In (EvPut "c1" (mkCluster (exampleSpec installed)
                                  (mkClusterStatus destroying false "")))
                   calls)
    by (rewrite <- Htr; vm_compute; auto 10).
  destruct (Hput (exampleCluster installed destroyed) "c1" _ eq_refl Hin)
    as (_ & Hr & Hcached).
  eexists. split; [rewrite Htr; exact Hin|].
  split; [reflexivity|]. split; [reflexivity|].
  destruct (Hcached eq_refl) as [Hs _]. exact Hs.
Defined.

(** X16. When one of [Get], the second [Get] or [Put] fails, the cycle
    continues, the status in the store is the one from before the cycle and
    the controller's cached spec is unchanged: what the transition did to the
    status is lost. *)
Theorem cycle_store_failure_keeps_status (env : Env) (s : State) :
  getFails env = true \/ secondGetFails env = true \/ putFails env = true ->
  let s' := snd (cycle env s) in
  fst (cycle env s) = Continue /\
  option_map Status (db s') = option_map Status (db s) /\
  clusterSpec (ctl s') = clusterSpec (ctl s).
Proof.
  intros Hfail.
  assert (Hre : forall c0, Status (reread env c0) = Status c0).
  { intros c0. unfold reread. destruct (editDuringTransition env); reflexivity. }
  split_cycle env s; rewrite ?HA, ?Hc; cbn [fst snd afterGet db ctl clusterSpec];
    try (rewrite Hdb; cbn [option_map]; rewrite Hre; repeat split; fail);
    try (repeat split; fail);
    exfalso; destruct Hfail as [H | [H | H]]; congruence.
Qed.

Lemma cycle_store_failure_keeps_status_witness :
  let env := mkEnv okPackage okExecutor (fun _ => okProvisioner)
                   false false true false None in
  option_map Status (db (snd (cycle env (exampleState provisioning installed))))
  = Some (mkClusterStatus provisioning false "").
Proof.
  cbv zeta.
  destruct (cycle_store_failure_keeps_status
              (mkEnv okPackage okExecutor (fun _ => okProvisioner)
                     false false true false None)
              (exampleState provisioning installed)) as (_ & H & _).
  - right. right. reflexivity.
  - exact H.
Defined.








Lemma install_runs_pipeline_trace (env : Env) (cluster : Cluster) (s : State) :
  trace (snd (install env cluster s))
  = (trace s ++ fst (run_pipeline env pipeline_order (installPlan (ctl s))))%list.
Proof.
  rewrite install_eq.
  unfold afterSmokeTest, afterInstall, kubeconfigError, afterCertificates,
    afterPreFlight.
  cbn [run_pipeline pipeline_order step_runs step_call].
  destruct (install.RunPreFlightCheck (executor env) (installPlan (ctl s)))
    as [p1 [e1|]]; cbn [fst snd isErr]; [reflexivity|].
  destruct (install.GenerateCertificates (executor env) p1 false)
    as [p2 [e2|]]; cbn [fst snd isErr];
    [rewrite <- !app_assoc; reflexivity|].
  destruct (install.GenerateKubeconfig (executor env) p2) as [e3|];
    cbn [fst snd isErr]; [rewrite <- !app_assoc; reflexivity|].
  destruct (install.Install (executor env) p2 true) as [p4 [e4|]];
    cbn [fst snd isErr]; [rewrite <- !app_assoc; reflexivity|].
  destruct (install.NetworkConfigured (pkg env) p4); cbn [negb fst snd];
    [|rewrite <- !app_assoc; reflexivity].
  destruct (install.RunSmokeTest (executor env) p4) as [p5 [e5|]];
    cbn [fst snd isErr]; rewrite <- !app_assoc; reflexivity.
Qed.

Lemma transition_trace (env : Env) (cluster : Cluster) (s : State) :
  trace (snd (transition env cluster s))
  = (trace s ++ transition_calls env cluster (ctl s))%list.
Proof.
  unfold transition, transition_calls.
  destruct (DesiredState (Spec cluster) =? CurrentState (Status cluster));
    [cbn; now rewrite app_nil_r|].
  destruct (String.eqb_spec (CurrentState (Status cluster)) "") as [Hs|_];
    [rewrite ?Hs; cbn; now rewrite app_nil_r|].
  destruct (String.eqb_spec (CurrentState (Status cluster)) planning) as [Hs|_].
  { rewrite ?Hs. run_monad.
    destruct (buildPlan _ _ _ _); cbn; now rewrite app_nil_r. }
  destruct (String.eqb_spec (CurrentState (Status cluster)) planned) as [Hs|_];
    [rewrite ?Hs; cbn; now rewrite app_nil_r|].
  destruct (String.eqb_spec (CurrentState (Status cluster)) planningFailed) as [Hs|_];
    [rewrite ?Hs; destruct (DesiredState (Spec cluster) =? destroyed); cbn;
     now rewrite app_nil_r|].
  destruct (String.eqb_spec (CurrentState (Status cluster)) provisioning) as [Hs|_].
  { run_monad. destruct (provision.Provision _ _); reflexivity. }
  destruct (String.eqb_spec (CurrentState (Status cluster)) provisioned) as [Hs|_];
    [rewrite ?Hs; destruct (DesiredState (Spec cluster) =? destroyed); cbn;
     now rewrite app_nil_r|].
  destruct (String.eqb_spec (CurrentState (Status cluster)) provisionFailed) as [Hs|_];
    [rewrite ?Hs; destruct (DesiredState (Spec cluster) =? destroyed); cbn;
     now rewrite app_nil_r|].
  destruct (String.eqb_spec (CurrentState (Status cluster)) destroying) as [Hs|_].
  { run_monad. destruct (provision.Destroy _ _); reflexivity. }
  destruct (String.eqb_spec (CurrentState (Status cluster)) installing) as [Hs|_].
  { apply (install_runs_pipeline_trace env cluster s). }
  destruct (CurrentState (Status cluster) =? installFailed);
    [destruct (DesiredState (Spec cluster) =? destroyed); cbn;
     now rewrite app_nil_r|].
  destruct (CurrentState (Status cluster) =? installed);
    [destruct (DesiredState (Spec cluster) =? destroyed); cbn;
     now rewrite app_nil_r|].
  cbn. now rewrite app_nil_r.
Qed.

Lemma run_pipeline_length (env : Env) (steps : list Step) (p : install.Plan) :
  length (fst (run_pipeline env steps p)) <= length steps.
Proof.
  revert p. induction steps as [|st steps IH]; intros p; cbn [run_pipeline length].
  - cbn. lia.
  - destruct (step_runs env st p).
    + destruct (step_call env st p) as [ev [p' [e|]]]; [cbn; lia|].
      specialize (IH p'). destruct (run_pipeline env steps p') as [evs failed].
      cbn [fst length] in *. lia.
    + specialize (IH p). lia.
Qed.

(** X19. The calls of a transition are decided by the current state alone:
    one [Provision] in [provisioning] and one [Destroy] in [destroying],
    whatever the desired state is and whether the call succeeds; the calls of
    the install pipeline, at most five, in [installing]; none in every other
    state, and none when the desired state is reached. *)
Theorem transition_makes_one_action (env : Env) (cluster : Cluster) (s : State) :
  let calls := transition_calls env cluster (ctl s) in
  trace (snd (transition env cluster s)) = (trace s ++ calls)%list /\
  length calls <= 5 /\
  (CurrentState (Status cluster) <> installing -> length calls <= 1) /\
  (~ In (CurrentState (Status cluster)) [provisioning; destroying; installing] ->
   calls = []).
Proof.
  cbv zeta. split; [apply transition_trace|].
  unfold transition_calls.
  destruct (DesiredState (Spec cluster) =? CurrentState (Status cluster));
    [cbn; repeat split; auto; lia|].
  destruct (String.eqb_spec (CurrentState (Status cluster)) provisioning) as [Hs|_];
    [cbn; repeat split; try lia; intros H; exfalso; apply H; rewrite Hs;
     cbn; auto|].
  destruct (String.eqb_spec (CurrentState (Status cluster)) destroying) as [Hs|_];
    [cbn; repeat split; try lia; intros H; exfalso; apply H; rewrite Hs;
     cbn; auto|].
  destruct (String.eqb_spec (CurrentState (Status cluster)) installing) as [Hs|_];
    [|cbn; repeat split; auto; lia].
  pose proof (run_pipeline_length env pipeline_order (installPlan (ctl s))) as Hl.
  cbn [pipeline_order length] in Hl.
  split; [exact Hl|]. split; [intros H; contradiction|].
  intros H. exfalso. apply H. rewrite Hs. cbn. auto.
Qed.

Lemma transition_makes_one_action_witness :
  trace (snd (transition failEnv (exampleCluster provisioning destroyed)
                (exampleState provisioning destroyed)))
  = [EvProvision emptyPlan].
Proof.
  destruct (transition_makes_one_action failEnv
              (exampleCluster provisioning destroyed)
              (exampleState provisioning destroyed)) as (Htr & _).
  exact Htr.
Defined.

Lemma transition_keeps_name (env : Env) (cluster : Cluster) (s : State) :
  clusterName (ctl (snd (transition env cluster s))) = clusterName (ctl s).
Proof.
  destruct (transition_effects env cluster s) as (calls & _ & _ & H & _).
  exact H.
Qed.

(** One transition with successful actions, on a record whose current and
    desired states are known. *)
Lemma transition_success_known (env : Env) (cluster : Cluster) (s : State)
    (current desired : string) (waiting : bool) :
  always_succeeds env ->
  DesiredState (Spec cluster) = desired ->
  statePair cluster = (current, waiting) ->
  let r := fst (transition env cluster s) in
  let s' := snd (transition env cluster s) in
  DesiredState (Spec r) = desired /\
  statePair r = success_step desired (current, waiting) /\
  clusterName (ctl s') = clusterName (ctl s) /\
  trace s' =
    (trace s ++
     transition_calls env
       (mkCluster (mkClusterSpec desired (Provisioner (Spec cluster)) 0 0 0 0)
                  (mkClusterStatus current waiting ""))
       (ctl s))%list.
Proof.
  intros Hsucc Hd Hp. cbv zeta.
  destruct (transition_success_step env Hsucc cluster s) as [Hspec Hpair].
  rewrite Hspec, Hpair, Hd, Hp, transition_keeps_name, transition_trace.
  repeat split; auto.
  unfold transition_calls. cbn [Spec Status DesiredState CurrentState].
  injection Hp as Hc _. rewrite Hd, Hc. reflexivity.
Qed.

(** One more transition of a run in which every action succeeds. *)
Ltac next_transition Hsucc Hd Hp Hn Ht :=
  rewrite transitions_S;
  match goal with
  | |- context [transition ?env ?c ?s] =>
    let Hd' := fresh "Hd" in
    let Hp' := fresh "Hp" in
    let Hn' := fresh "Hn" in
    let Ht' := fresh "Ht" in
    destruct (transition_success_known env c s _ _ _ Hsucc Hd Hp)
      as (Hd' & Hp' & Hn' & Ht');
    destruct (transition env c s) as [? ?];
    cbn [fst snd] in Hd', Hp', Hn', Ht';
    cbn [success_step String.eqb Ascii.eqb Bool.eqb destroyed planning
         planned provisioning provisioned destroying] in Hp';
    unfold transition_calls in Ht';
    cbn in Ht';
    rewrite ?app_nil_r in Ht';
    try rewrite Hn in Hn'; try rewrite Ht in Ht'; try rewrite Hn in Ht'
  end.

(** X20. A record that starts in the initial state with [destroyed] as its
    desired state is not destroyed at once: with every action succeeding, six
    transitions take it through planning and provisioning, and make one call
    to [Provision] followed by one call to [Destroy] before the record is
    [destroyed]. *)
Theorem transitions_provision_before_destroying (env : Env) (cluster : Cluster) (s : State) :
  always_succeeds env ->
  CurrentState (Status cluster) = "" ->
  DesiredState (Spec cluster) = destroyed ->
  let r := fst (transitions env 6 cluster s) in
  let s' := snd (transitions env 6 cluster s) in
  CurrentState (Status r) = destroyed /\
  exists p,
    trace s' = (trace s ++ [EvProvision p; EvDestroy (clusterName (ctl s))])%list.
Proof.
  intros Hsucc Hc Hd. cbv zeta.
  assert (Hp0 : statePair cluster
                = ("", WaitingForManualRetry (Status cluster)))
    by (unfold statePair; now rewrite Hc).
  set (w := WaitingForManualRetry (Status cluster)) in *.
  assert (Hn0 : clusterName (ctl s) = clusterName (ctl s)) by reflexivity.
  assert (Ht0 : trace s = trace s) by reflexivity.
  next_transition Hsucc Hd Hp0 Hn0 Ht0.
  next_transition Hsucc Hd0 Hp Hn Ht.
  next_transition Hsucc Hd1 Hp1 Hn1 Ht1.
  next_transition Hsucc Hd2 Hp2 Hn2 Ht2.
  next_transition Hsucc Hd3 Hp3 Hn3 Ht3.
  next_transition Hsucc Hd4 Hp4 Hn4 Ht4.
  cbn [transitions ret fst snd].
  injection Hp5 as Hcur _. split; [exact Hcur|].
  eexists. rewrite Ht5, <- app_assoc. reflexivity.
Qed.

Lemma transitions_provision_before_destroying_witness :
  CurrentState (Status (fst (transitions okEnv 6 (exampleCluster "" destroyed)
                               (exampleState "" destroyed)))) = destroyed /\
  exists p,
    trace (snd (transitions okEnv 6 (exampleCluster "" destroyed)
                  (exampleState "" destroyed)))
    = [EvProvision p; EvDestroy "c1"].
Proof.
  apply (transitions_provision_before_destroying okEnv
           (exampleCluster "" destroyed) (exampleState "" destroyed)).
  - exact okEnv_always_succeeds.
  - reflexivity.
  - reflexivity.
Defined.

Lemma planAgain_same_spec (c : clusterController) (cluster : Cluster) :
  clusterSpec c = Spec cluster -> planAgain c cluster = cluster.
Proof.
  intros H. unfold planAgain.
  assert (Hc : cmpEqual (Spec cluster) (clusterSpec c) = true)
    by (apply cmpEqual_true; auto).
  rewrite Hc. reflexivity.
Qed.

(** A cycle in which the store works, on a record that is neither idle nor
    waiting and that the spec check leaves alone. *)
Lemma cycle_store_works (env : Env) (s : State) (c0 : Cluster) :
  store_works env ->
  db s = Some c0 ->
  planAgain (ctl s) c0 = c0 ->
  WaitingForManualRetry (Status c0) = false ->
  CurrentState (Status c0) <> DesiredState (Spec c0) ->
  let name := clusterName (ctl s) in
  exists t actions plan',
    let stored := setStatus c0 (Status t) in
    let calls := (callsToReread name c0 actions ++ [EvPut name stored])%list in
    let updated := mkController name (Spec c0) plan' in
    transition env c0
      (mkState (ctl s) (db s) (trace s ++ [EvGet name; EvTransition c0]))
    = (t, mkState (mkController name (clusterSpec (ctl s)) plan') (db s)
            (trace s ++ [EvGet name; EvTransition c0] ++ actions)) /\
    ((CurrentState (Status t) <> destroyed /\
      cycle env s = (Continue, mkState updated (Some stored) (trace s ++ calls)))
     \/
     (CurrentState (Status t) = destroyed /\
      cycle env s =
        (Return, mkState updated None (trace s ++ calls ++ [EvDelete name])))).
Proof.
  intros (Hg & Hg2 & Hput & Hdelete & Hedit) Hdb0 Hplan Hw0 Hne0. cbv zeta.
  assert (Hre : reread env c0 = c0)
    by (unfold reread; now rewrite Hedit).
  split_cycle env s; try congruence.
  - exfalso. destruct Hwhy as [H | [H | (c1 & H & Hidle)]]; try congruence.
    assert (c1 = c0) by congruence. subst c1.
    rewrite Hplan in Hidle. destruct Hidle; congruence.
  - assert (cluster0 = c0) by congruence. subst cluster0.
    rewrite Hplan, Hre in *.
    exists t, actions, plan'. split; [exact Ht|]. left.
    split; [exact Hd|]. rewrite Hc, <- !app_assoc. reflexivity.
  - assert (cluster0 = c0) by congruence. subst cluster0.
    rewrite Hplan, Hre in *.
    exists t, actions, plan'. split; [exact Ht|]. right.
    split; [exact Hd|]. rewrite Hc, <- !app_assoc. reflexivity.
Qed.

(** One cycle along the way to [installed]. *)
Lemma install_cycle (env : Env) (s : State) (c0 : Cluster) (i : nat) :
  all_goes_well env ->
  db s = Some c0 ->
  clusterSpec (ctl s) = Spec c0 ->
  DesiredState (Spec c0) = installed ->
  WaitingForManualRetry (Status c0) = false ->
  CurrentState (Status c0) = nth i installPath installed ->
  exists s' r,
    cycle env s = (Continue, s') /\
    db s' = Some r /\
    clusterSpec (ctl s') = Spec r /\
    Spec r = Spec c0 /\
    WaitingForManualRetry (Status r) = false /\
    CurrentState (Status r) = nth (S i) installPath installed.
Proof.
  intros [Hstore Hsucc] Hdb0 Hcached Hdes Hw0 Hcur.
  assert (Hplan : planAgain (ctl s) c0 = c0)
    by (apply planAgain_same_spec; exact Hcached).
  assert (Hidle : CurrentState (Status c0) = installed ->
          exists s' r,
            cycle env s = (Continue, s') /\ db s' = Some r /\
            clusterSpec (ctl s') = Spec r /\ Spec r = Spec c0 /\
            WaitingForManualRetry (Status r) = false /\
            CurrentState (Status r) = installed).
  { intros Hinst. exists (afterGet s), c0.
    destruct Hstore as (Hg & _).
    rewrite (cycle_get_ok env s c0 Hdb0 Hg), Hplan.
    split; [apply reconcile_idle; left; congruence|].
    cbn [afterGet db ctl]. auto. }
  assert (Hstep : forall next,
            CurrentState (Status c0) <> installed ->
            success_step installed (CurrentState (Status c0), false)
              = (next, false) ->
            next <> destroyed ->
            exists s' r,
              cycle env s = (Continue, s') /\ db s' = Some r /\
              clusterSpec (ctl s') = Spec r /\ Spec r = Spec c0 /\
              WaitingForManualRetry (Status r) = false /\
              CurrentState (Status r) = next).
  { intros next Hne Hnext Hnd.
    destruct (cycle_store_works env s c0 Hstore Hdb0 Hplan Hw0)
      as (t & actions & plan' & Ht & Hcase); [congruence|].
    cbv zeta in *.
    destruct (transition_success_step env Hsucc c0
                (mkState (ctl s) (db s)
                   (trace s ++ [EvGet (clusterName (ctl s)); EvTransition c0])))
      as [_ Hpair].
    rewrite Ht in Hpair. cbn [fst] in Hpair.
    unfold statePair in Hpair. rewrite Hdes, Hw0, Hnext in Hpair.
    injection Hpair as Hcur' Hw'.
    destruct Hcase as [[_ Hc] | [Hd _]]; [|congruence].
    eexists. eexists. split; [exact Hc|]. cbn [db ctl clusterSpec].
    split; [reflexivity|]. repeat split; assumption. }
  destruct i as [|[|[|[|[|[|i]]]]]]; cbn [nth installPath] in *;
    try (apply Hstep; [rewrite Hcur; discriminate
                      | rewrite Hcur; reflexivity | discriminate]).
  assert (Hinst : CurrentState (Status c0) = installed)
    by (rewrite Hcur; destruct i as [|[|i]]; reflexivity).
  destruct (Hidle Hinst) as (s' & r & H1 & H2 & H3 & H4 & H5 & H6).
  exists s', r. repeat split; auto.
  rewrite H6. destruct i as [|[|i]]; reflexivity.
Qed.

Lemma run_installs_from (envs : list Env) (s : State) (c0 : Cluster) (i : nat) :
  Forall all_goes_well envs ->
  db s = Some c0 ->
  clusterSpec (ctl s) = Spec c0 ->
  DesiredState (Spec c0) = installed ->
  WaitingForManualRetry (Status c0) = false ->
  CurrentState (Status c0) = nth i installPath installed ->
  exists s' r,
    run (map Notify envs) s = (Continue, s') /\
    db s' = Some r /\
    Spec r = Spec c0 /\
    WaitingForManualRetry (Status r) = false /\
    CurrentState (Status r) = nth (i + length envs) installPath installed.
Proof.
  revert s c0 i. induction envs as [|env envs IH];
    intros s c0 i Hall Hdb0 Hcached Hdes Hw0 Hcur.
  - exists s, c0. rewrite Nat.add_0_r. cbn. auto.
  - inversion Hall as [|? ? Hgood Hrest]; subst.
    destruct (install_cycle env s c0 i Hgood Hdb0 Hcached Hdes Hw0 Hcur)
      as (s1 & r1 & Hcycle & Hdb1 & Hcached1 & Hspec1 & Hw1 & Hcur1).
    destruct (IH s1 r1 (S i) Hrest Hdb1 Hcached1) as
      (s' & r & Hrun & Hdb' & Hspec' & Hw' & Hcur'); auto; [congruence|].
    exists s', r. cbn [map run]. rewrite Hcycle.
    split; [exact Hrun|]. split; [exact Hdb'|].
    split; [congruence|]. split; [exact Hw'|].
    rewrite Hcur'. cbn [length]. f_equal. lia.
Qed.

(** X21. When the store works and every action succeeds, a new record whose
    desired state is [installed] moves one state per notification along
    planning, planned, provisioning, provisioned and installing, is stored as
    [installed] after the sixth notification, and stays so under any further
    notifications; its spec is untouched and it never waits for a retry. *)
Theorem run_installs_in_six_notifications (envs : list Env) (s : State) (c0 : Cluster) :
  Forall all_goes_well envs ->
  db s = Some c0 ->
  clusterSpec (ctl s) = Spec c0 ->
  DesiredState (Spec c0) = installed ->
  WaitingForManualRetry (Status c0) = false ->
  CurrentState (Status c0) = "" ->
  exists s' r,
    run (map Notify envs) s = (Continue, s') /\
    db s' = Some r /\
    Spec r = Spec c0 /\
    WaitingForManualRetry (Status r) = false /\
    CurrentState (Status r) = nth (length envs) installPath installed /\
    (6 <= length envs -> CurrentState (Status r) = installed).
Proof.
  intros Hall Hdb0 Hcached Hdes Hw0 Hcur.
  destruct (run_installs_from envs s c0 0 Hall Hdb0 Hcached Hdes Hw0 Hcur)
    as (s' & r & Hrun & Hdb' & Hspec & Hw & Hcur').
  exists s', r. cbn [Nat.add] in Hcur'. repeat split; auto.
  intros Hlen. rewrite Hcur'.
  do 6 (destruct envs as [|? envs]; [cbn in Hlen; lia|]).
  cbn [length]. destruct (length envs) as [|[|n]]; reflexivity.
Qed.

Lemma okEnv_all_goes_well : all_goes_well okEnv.
Proof.
  split; [repeat split | exact okEnv_always_succeeds].
Qed.

Lemma run_installs_in_six_notifications_witness :
  exists s' r,
    run (map Notify (repeat okEnv 8)) (exampleState "" installed) = (Continue, s') /\
    db s' = Some r /\
    CurrentState (Status r) = installed.
Proof.
  destruct (run_installs_in_six_notifications (repeat okEnv 8)
              (exampleState "" installed) (exampleCluster "" installed))
    as (s' & r & Hrun & Hdb' & _ & _ & _ & Hinst).
  - cbn [repeat].
    repeat (apply Forall_cons; [exact okEnv_all_goes_well|]). apply Forall_nil.
  - reflexivity.
  - reflexivity.
  - reflexivity.
  - reflexivity.
  - reflexivity.
  - exists s', r. split; [exact Hrun|]. split; [exact Hdb'|].
    apply Hinst. cbn. lia.
Defined.

(** X22. When the desired state of an installed cluster is [destroyed], two
    notifications end the controller: the first stores the record as
    [destroying], the second calls [Destroy], stores the record as
    [destroyed], deletes it and makes the loop return.  The calls are exactly
    these, and whatever arrives afterwards is not processed. *)
Theorem run_destroys_installed_cluster
    (env1 env2 : Env) (rest : list Input) (s : State) (c0 : Cluster) :
  let name := clusterName (ctl s) in
  let c1 := setCurrentState c0 destroying in
  let c2 := setCurrentState c0 destroyed in
  store_works env1 ->
  store_works env2 ->
  provision.Destroy (newProvisioner env2 c1) name = None ->
  db s = Some c0 ->
  CurrentState (Status c0) = installed ->
  DesiredState (Spec c0) = destroyed ->
  WaitingForManualRetry (Status c0) = false ->
  exists s',
    run (Notify env1 :: Notify env2 :: rest) s = (Return, s') /\
    db s' = None /\
    trace s' =
      (trace s ++
       [EvGet name; EvTransition c0; EvGet name; EvPut name c1;
        EvGet name; EvTransition c1; EvDestroy name; EvGet name;
        EvPut name c2; EvDelete name])%list.
Proof.
  cbv zeta. intros Hs1 Hs2 Hdestroy Hdb0 Hcur Hdes Hw0.
  assert (Hc0 : c0 = mkCluster (Spec c0)
                       (mkClusterStatus installed false (ClusterIP (Status c0)))).
  { destruct c0 as [sp [cur w ip]]. cbn in *. now subst. }
  (* first notification *)
  destruct (cycle_store_works env1 s c0 Hs1 Hdb0
              (planAgain_destroyed _ _ Hdes) Hw0)
    as (t & actions & plan' & Ht & Hcase);
    [rewrite Hcur, Hdes; discriminate|].
  cbv zeta in *.
  assert (Ht1 : forall s1, transition env1 c0 s1
                           = (setCurrentState c0 destroying, s1)).
  { intros s1. unfold transition. rewrite Hcur, Hdes. reflexivity. }
  rewrite Ht1 in Ht. injection Ht as <- Hplan' Hactions.
  apply app_inv_head in Hactions.
  assert (actions = []) by (destruct actions; [reflexivity | discriminate]).
  subst actions.
  destruct Hcase as [[_ Hc1] | [Hd _]]; [|discriminate Hd].
  cbn [run]. rewrite Hc1.
  (* second notification *)
  set (c1 := setStatus c0 (Status (setCurrentState c0 destroying))) in *.
  assert (Hc1eq : c1 = setCurrentState c0 destroying)
    by (destruct c0 as [sp [cur w ip]]; reflexivity).
  match goal with
  | |- context [cycle env2 ?s1] =>
    destruct (cycle_store_works env2 s1 c1 Hs2 eq_refl)
      as (t2 & actions2 & plan2 & Ht2 & Hcase2)
  end.
  { apply planAgain_destroyed. rewrite Hc1eq. exact Hdes. }
  { rewrite Hc1eq. exact Hw0. }
  { rewrite Hc1eq. cbn. rewrite Hdes. discriminate. }
  cbv zeta in *. cbn [ctl db trace clusterName clusterSpec] in *.
  assert (Hdisp : transition env2 c1 = destroy env2 c1).
  { apply (transition_dispatch env2 c1).
    - rewrite Hc1eq. cbn. rewrite Hdes. discriminate.
    - rewrite Hc1eq. reflexivity. }
  rewrite Hdisp, destroy_succeeds in Ht2
    by (cbn [ctl clusterName]; rewrite Hc1eq; exact Hdestroy).
  cbn [ctl db trace clusterName] in Ht2.
  injection Ht2 as <- Hplan2 Hactions2.
  rewrite <- app_assoc in Hactions2. apply app_inv_head in Hactions2.
  cbn [app] in Hactions2. injection Hactions2 as <-.
  destruct Hcase2 as [[Hnd _] | [_ Hc2]]; [exfalso; apply Hnd; reflexivity|].
  rewrite Hc2. eexists. split; [reflexivity|]. cbn [db trace].
  split; [reflexivity|].
  unfold callsToReread. rewrite <- !app_assoc. cbn [app].
  rewrite Hc1eq.
  replace (setStatus (setCurrentState c0 destroying)
             (Status (setCurrentState (setCurrentState c0 destroying) destroyed)))
    with (setCurrentState c0 destroyed)
    by (destruct c0 as [sp [cur w ip]]; reflexivity).
  reflexivity.
Qed.

Lemma run_destroys_installed_cluster_witness :
  exists s',
    run [Notify okEnv; Notify okEnv; Notify okEnv; EditSpec (exampleSpec installed)]
        (exampleState installed destroyed) = (Return, s') /\
    db s' = None.
Proof.
  destruct (run_destroys_installed_cluster okEnv okEnv
              [Notify okEnv; EditSpec (exampleSpec installed)]
              (exampleState installed destroyed)
              (exampleCluster installed destroyed))
    as (s' & Hrun & Hdb' & _); try reflexivity; try (repeat split; fail).
  exists s'. split; [exact Hrun | exact Hdb'].
Defined.
